(** * The per-machine collector pollers of Omni (task/machine/poll.go)

    A shallow embedding of the pollers that fill the in-memory [Info]
  snapshot of a machine, and of the dispatcher [poll] that selects a
  poller by name.  A poller [func(ctx, c, info) error] mutates [*info]
  and returns an error; here it is a function
  [Client -> Info -> Info * option error] returning the [Info] it leaves
  behind together with the Go error ([None] is [nil]).  The context only
  matters through the calls it can abort: a cancelled call is a call
  that returns an error. *)

From Stdlib Require Import ZArith.
From stdpp Require Import base option list strings gmap fin_maps sorting.

(** ** Go values *)

(** A Go slice is either [nil] or a (possibly empty) sequence. *)
Definition slice (A : Type) : Type := option (list A).

Definition elems {A} (s : slice A) : list A := default [] s.

(** [append(s, x)]: the result is never [nil]. *)
Definition append {A} (s : slice A) (x : A) : slice A := Some (elems s ++ [x]).

(** [make([]T, 0, n)]: empty but not [nil]. *)
Definition make_empty {A} : slice A := Some [].

(** The slice left by appending the elements of [l] to [s], one at a
    time: [s] itself when there is nothing to append. *)
Definition extend {A} (s : slice A) (l : list A) : slice A :=
  match l with
  | [] => s
  | _ => Some (elems s ++ l)
  end.

(** [fmt.Sprintf("%s %s", a, b)]. *)
Definition Sprintf_s_s (a b : string) : string := a +:+ " " +:+ b.

(** [uint32(n)] for an [int] n. *)
Definition uint32 (n : Z) : Z := n mod 2 ^ 32.

(** A Go map value is [nil] or a map; reading a [nil] map finds nothing. *)
Definition labels_lookup (m : option (gmap string string)) (k : string) : option string :=
  m ≫= (λ m', m' !! k).

Module codes.
(** [google.golang.org/grpc/codes]. *)
Inductive Code :=
| OK | Canceled | Unknown | InvalidArgument | DeadlineExceeded | NotFound
| AlreadyExists | PermissionDenied | ResourceExhausted | FailedPrecondition
| Aborted | OutOfRange | Unimplemented | Internal | Unavailable | DataLoss
| Unauthenticated.

#[global] Instance Code_eq_dec : EqDecision Code.
Proof. solve_decision. Defined.
End codes.

(** Go errors: gRPC status errors, the sentinel [talos.ErrInvalidSchematic],
    errors wrapping another one ([fmt.Errorf("...: %w", err)]) and plain
    errors. *)
Inductive error :=
| StatusError (code : codes.Code) (msg : string)
| ErrInvalidSchematic
| Errorf (msg : string) (wrapped : error)
| ErrorNew (msg : string).

#[global] Instance error_eq_dec : EqDecision error.
Proof. solve_decision. Defined.

(** [errors.Is(err, target)]: [target] is met along the chain of wrapped
    errors. *)
Fixpoint errors_Is (err target : error) : bool :=
  if decide (err = target) then true
  else match err with
       | Errorf _ wrapped => errors_Is wrapped target
       | _ => false
       end.

Fixpoint grpc_status (err : error) : option codes.Code :=
  match err with
  | StatusError code _ => Some code
  | Errorf _ wrapped => grpc_status wrapped
  | _ => None
  end.

(** [client.StatusCode(err)]: [OK] for [nil], the code of the first status
    error in the chain, [Unknown] when there is none. *)
Definition StatusCode (err : option error) : codes.Code :=
  match err with
  | None => codes.OK
  | Some e => default codes.Unknown (grpc_status e)
  end.

(** Outcome of a unary call or of a list call on a node that hands back a
    response or an error, not both: the Go pair [(resp, err)] is
    [(resp, nil)] or [(nil, err)].  The Go type of a call also has the
    pairs with both components set; [pollVersion], the one poller that
    reads a response after an error, is given on every pair by
    [pollVersion_on]. *)
Inductive rpc_result (A : Type) : Type :=
| RpcOk (resp : A)
| RpcErr (err : error).
Arguments RpcOk {A} resp.
Arguments RpcErr {A} err.

(** The Go pair of an outcome. *)
Definition returned {A} (r : rpc_result A) : option A * option error :=
  match r with
  | RpcOk resp => (Some resp, None)
  | RpcErr err => (None, Some err)
  end.

(** ** Values of [net/netip] *)
Module netip.
(** The address family / zone tag of an [Addr]; [z0] marks the zero
    (invalid) [Addr]. *)
Inductive zone := z0 | z4 | z6noz | z6 (name : string).

#[global] Instance zone_eq_dec : EqDecision zone.
Proof. solve_decision. Defined.

Record Addr := { hi : N; lo : N; z : zone }.

#[global] Instance Addr_eq_dec : EqDecision Addr.
Proof. solve_decision. Defined.

Definition Addr_zero : Addr := {| hi := 0; lo := 0; z := z0 |}.

(** [Addr.IsValid]. *)
Definition IsValid (a : Addr) : bool := bool_decide (z a ≠ z0).

Record Prefix := { ip : Addr; bitsPlusOne : N }.

#[global] Instance Prefix_eq_dec : EqDecision Prefix.
Proof. solve_decision. Defined.

Definition Prefix_zero : Prefix := {| ip := Addr_zero; bitsPlusOne := 0 |}.

(** [Prefix.Addr]. *)
Definition PrefixAddr (p : Prefix) : Addr := ip p.
End netip.

(** [value.IsZero(v)]: [v] equals the zero value of its type. *)
Definition value_IsZero {T} `{EqDecision T} (zero v : T) : bool :=
  bool_decide (v = zero).

Module nethelpers.
(** [nethelpers.Scope] is a [uint8]; [ScopeGlobal] is [RT_SCOPE_UNIVERSE]. *)
Definition Scope : Type := N.
Definition ScopeGlobal : Scope := 0%N.
(** [nethelpers.HardwareAddr] is a byte sequence. *)
Definition HardwareAddr : Type := list N.
End nethelpers.

(** ** Resources read from the node

    Each record keeps the id of the resource ([r.Metadata().ID()]) and the
    fields of its typed spec that the pollers read. *)
Module HostnameStatus.
Record t := { ID : string; Hostname : string; Domainname : string }.
End HostnameStatus.

Module NodeAddress.
Record t := { ID : string; Addresses : list netip.Prefix }.
End NodeAddress.

Module RouteStatus.
Record t := {
  ID : string;
  Destination : netip.Prefix;
  Gateway : netip.Addr;
  Scope : nethelpers.Scope
}.
End RouteStatus.

Module LinkStatus.
Record t := {
  ID : string;
  HardwareAddr : nethelpers.HardwareAddr;
  SpeedMegabits : Z;
  LinkState : bool;
  Vendor : string;
  Product : string;
  Type_ : N;
  Kind : string
}.
End LinkStatus.

Module Processor.
Record t := {
  ID : string;
  CoreCount : N;
  ThreadCount : N;
  MaxSpeed : N;
  Manufacturer : string;
  ProductName : string
}.
End Processor.

Module MemoryModule.
Record t := { ID : string; Size : N; Manufacturer : string }.
End MemoryModule.

Module PlatformMetadataSpec.
Record t := {
  ID : string;
  Platform : string;
  Hostname : string;
  Region : string;
  Zone : string;
  InstanceType : string;
  InstanceID : string;
  ProviderID : string;
  Spot : bool
}.
End PlatformMetadataSpec.

Module MetaKey.
Record t := { ID : string; Value : string }.
End MetaKey.

Module ExtensionStatus.
Record t := { ID : string; Name : string; Version : string; Description : string }.
End ExtensionStatus.

(** ** Responses of the machine API *)
Module machineapi.
Record VersionInfo := { Tag : string; VArch : string }.
Record Version := { GetVersion : option VersionInfo }.
Record VersionResponse := { VMessages : list Version }.

(** The generated getters accept a [nil] receiver. *)
Definition GetTag (v : option VersionInfo) : string :=
  match v with Some i => Tag i | None => "" end.
Definition GetArch (v : option VersionInfo) : string :=
  match v with Some i => VArch i | None => "" end.
Definition GetMessages (r : option VersionResponse) : list Version :=
  match r with Some resp => VMessages resp | None => [] end.
End machineapi.

Module storage.
Inductive DiskType := UNKNOWN | SSD | HDD | NVME | SD.

Definition DiskType_String (t : DiskType) : string :=
  match t with
  | UNKNOWN => "UNKNOWN" | SSD => "SSD" | HDD => "HDD" | NVME => "NVME" | SD => "SD"
  end.

Record Disk := {
  GetSize : N;
  GetModel : string;
  GetDeviceName : string;
  GetName : string;
  GetSerial : string;
  GetUuid : string;
  GetWwid : string;
  GetType : DiskType;
  GetBusPath : string;
  GetSystemDisk : bool
}.
Record Disks := { GetDisks : list Disk }.
Record DisksResponse := { DMessages : list Disks }.

Definition GetMessages (r : option DisksResponse) : list Disks :=
  match r with Some resp => DMessages resp | None => [] end.
End storage.

(** ** Messages of [specs.MachineStatusSpec] *)
Module MachineStatusSpec_NetworkLinkStatus.
Record t := {
  LinuxName : string;
  HardwareAddress : string;
  SpeedMbps : Z;
  LinkUp : bool;
  Description : string
}.
End MachineStatusSpec_NetworkLinkStatus.

Module MachineStatusSpec_Processor.
Record t := {
  CoreCount : N;
  ThreadCount : N;
  Frequency : N;
  Manufacturer : string;
  Description : string
}.
End MachineStatusSpec_Processor.

Module MachineStatusSpec_MemoryModule.
Record t := { SizeMb : N; Description : string }.
End MachineStatusSpec_MemoryModule.

Module MachineStatusSpec_BlockDevice.
Record t := {
  Size : N;
  Model : string;
  LinuxName : string;
  Name : string;
  Serial : string;
  Uuid : string;
  Wwid : string;
  Type_ : string;
  BusPath : string;
  SystemDisk : bool
}.
End MachineStatusSpec_BlockDevice.

Module MachineStatusSpec_PlatformMetadata.
Record t := {
  Platform : string;
  Hostname : string;
  Region : string;
  Zone : string;
  InstanceType : string;
  InstanceId : string;
  ProviderId : string;
  Spot : bool
}.
End MachineStatusSpec_PlatformMetadata.

Module MachineStatusSpec_Schematic.
Record t := { Id : string; Invalid : bool }.
(** [&specs.MachineStatusSpec_Schematic{}]. *)
Definition empty : t := {| Id := ""; Invalid := false |}.
End MachineStatusSpec_Schematic.

(** [meta.ImageLabels]: the decoded labels blob, with its legacy shape. *)
Module meta_ImageLabels.
Record t := {
  Labels : option (gmap string string);
  LegacyLabels : option (gmap string string)
}.
End meta_ImageLabels.

(** The [MachineLabels] resource: only its metadata labels are read. *)
Module omni_MachineLabels.
Record t := { Labels : gmap string string }.
(** [Metadata().Labels().Keys()]. *)
Definition Keys (r : t) : list string := (map_to_list (Labels r)).*1.
End omni_MachineLabels.

(** ** The snapshot *)

(** Modelled from the spec: [Info] is declared in another file of the
    package; its fields are those the specification lists for the
    in-memory snapshot, with the types the pollers assign to them. *)
Record Info := {
  TalosVersion : option string;
  Arch : option string;
  Hostname : option string;
  Domainname : option string;
  Addresses : slice string;
  DefaultGateways : slice string;
  NetworkLinks : slice MachineStatusSpec_NetworkLinkStatus.t;
  Processors : slice MachineStatusSpec_Processor.t;
  MemoryModules : slice MachineStatusSpec_MemoryModule.t;
  Blockdevices : slice MachineStatusSpec_BlockDevice.t;
  PlatformMetadata : option MachineStatusSpec_PlatformMetadata.t;
  Schematic : option MachineStatusSpec_Schematic.t;
  ImageLabels : option (gmap string string);
  MaintenanceMode : bool;
  MachineLabels : option omni_MachineLabels.t
}.


(** Field stores [info.F = v]. *)
Definition set_TalosVersion (v : option string) (i : Info) : Info :=
  {| TalosVersion := v; Arch := Arch i; Hostname := Hostname i; Domainname := Domainname i;
     Addresses := Addresses i; DefaultGateways := DefaultGateways i; NetworkLinks := NetworkLinks i;
     Processors := Processors i; MemoryModules := MemoryModules i; Blockdevices := Blockdevices i;
     PlatformMetadata := PlatformMetadata i; Schematic := Schematic i;
     ImageLabels := ImageLabels i; MaintenanceMode := MaintenanceMode i;
     MachineLabels := MachineLabels i |}.

Definition set_Arch (v : option string) (i : Info) : Info :=
  {| TalosVersion := TalosVersion i; Arch := v; Hostname := Hostname i; Domainname := Domainname i;
     Addresses := Addresses i; DefaultGateways := DefaultGateways i; NetworkLinks := NetworkLinks i;
     Processors := Processors i; MemoryModules := MemoryModules i; Blockdevices := Blockdevices i;
     PlatformMetadata := PlatformMetadata i; Schematic := Schematic i;
     ImageLabels := ImageLabels i; MaintenanceMode := MaintenanceMode i;
     MachineLabels := MachineLabels i |}.

Definition set_Hostname (v : option string) (i : Info) : Info :=
  {| TalosVersion := TalosVersion i; Arch := Arch i; Hostname := v; Domainname := Domainname i;
     Addresses := Addresses i; DefaultGateways := DefaultGateways i; NetworkLinks := NetworkLinks i;
     Processors := Processors i; MemoryModules := MemoryModules i; Blockdevices := Blockdevices i;
     PlatformMetadata := PlatformMetadata i; Schematic := Schematic i;
     ImageLabels := ImageLabels i; MaintenanceMode := MaintenanceMode i;
     MachineLabels := MachineLabels i |}.

Definition set_Domainname (v : option string) (i : Info) : Info :=
  {| TalosVersion := TalosVersion i; Arch := Arch i; Hostname := Hostname i; Domainname := v;
     Addresses := Addresses i; DefaultGateways := DefaultGateways i; NetworkLinks := NetworkLinks i;
     Processors := Processors i; MemoryModules := MemoryModules i; Blockdevices := Blockdevices i;
     PlatformMetadata := PlatformMetadata i; Schematic := Schematic i;
     ImageLabels := ImageLabels i; MaintenanceMode := MaintenanceMode i;
     MachineLabels := MachineLabels i |}.

Definition set_Addresses (v : slice string) (i : Info) : Info :=
  {| TalosVersion := TalosVersion i; Arch := Arch i; Hostname := Hostname i; Domainname := Domainname i;
     Addresses := v; DefaultGateways := DefaultGateways i; NetworkLinks := NetworkLinks i;
     Processors := Processors i; MemoryModules := MemoryModules i; Blockdevices := Blockdevices i;
     PlatformMetadata := PlatformMetadata i; Schematic := Schematic i;
     ImageLabels := ImageLabels i; MaintenanceMode := MaintenanceMode i;
     MachineLabels := MachineLabels i |}.

Definition set_DefaultGateways (v : slice string) (i : Info) : Info :=
  {| TalosVersion := TalosVersion i; Arch := Arch i; Hostname := Hostname i; Domainname := Domainname i;
     Addresses := Addresses i; DefaultGateways := v; NetworkLinks := NetworkLinks i;
     Processors := Processors i; MemoryModules := MemoryModules i; Blockdevices := Blockdevices i;
     PlatformMetadata := PlatformMetadata i; Schematic := Schematic i;
     ImageLabels := ImageLabels i; MaintenanceMode := MaintenanceMode i;
     MachineLabels := MachineLabels i |}.

Definition set_NetworkLinks (v : slice MachineStatusSpec_NetworkLinkStatus.t) (i : Info) : Info :=
  {| TalosVersion := TalosVersion i; Arch := Arch i; Hostname := Hostname i; Domainname := Domainname i;
     Addresses := Addresses i; DefaultGateways := DefaultGateways i; NetworkLinks := v;
     Processors := Processors i; MemoryModules := MemoryModules i; Blockdevices := Blockdevices i;
     PlatformMetadata := PlatformMetadata i; Schematic := Schematic i;
     ImageLabels := ImageLabels i; MaintenanceMode := MaintenanceMode i;
     MachineLabels := MachineLabels i |}.

Definition set_Processors (v : slice MachineStatusSpec_Processor.t) (i : Info) : Info :=
  {| TalosVersion := TalosVersion i; Arch := Arch i; Hostname := Hostname i; Domainname := Domainname i;
     Addresses := Addresses i; DefaultGateways := DefaultGateways i; NetworkLinks := NetworkLinks i;
     Processors := v; MemoryModules := MemoryModules i; Blockdevices := Blockdevices i;
     PlatformMetadata := PlatformMetadata i; Schematic := Schematic i;
     ImageLabels := ImageLabels i; MaintenanceMode := MaintenanceMode i;
     MachineLabels := MachineLabels i |}.

Definition set_MemoryModules (v : slice MachineStatusSpec_MemoryModule.t) (i : Info) : Info :=
  {| TalosVersion := TalosVersion i; Arch := Arch i; Hostname := Hostname i; Domainname := Domainname i;
     Addresses := Addresses i; DefaultGateways := DefaultGateways i; NetworkLinks := NetworkLinks i;
     Processors := Processors i; MemoryModules := v; Blockdevices := Blockdevices i;
     PlatformMetadata := PlatformMetadata i; Schematic := Schematic i;
     ImageLabels := ImageLabels i; MaintenanceMode := MaintenanceMode i;
     MachineLabels := MachineLabels i |}.

Definition set_Blockdevices (v : slice MachineStatusSpec_BlockDevice.t) (i : Info) : Info :=
  {| TalosVersion := TalosVersion i; Arch := Arch i; Hostname := Hostname i; Domainname := Domainname i;
     Addresses := Addresses i; DefaultGateways := DefaultGateways i; NetworkLinks := NetworkLinks i;
     Processors := Processors i; MemoryModules := MemoryModules i; Blockdevices := v;
     PlatformMetadata := PlatformMetadata i; Schematic := Schematic i;
     ImageLabels := ImageLabels i; MaintenanceMode := MaintenanceMode i;
     MachineLabels := MachineLabels i |}.

Definition set_PlatformMetadata (v : option MachineStatusSpec_PlatformMetadata.t) (i : Info) : Info :=
  {| TalosVersion := TalosVersion i; Arch := Arch i; Hostname := Hostname i; Domainname := Domainname i;
     Addresses := Addresses i; DefaultGateways := DefaultGateways i; NetworkLinks := NetworkLinks i;
     Processors := Processors i; MemoryModules := MemoryModules i; Blockdevices := Blockdevices i;
     PlatformMetadata := v; Schematic := Schematic i;
     ImageLabels := ImageLabels i; MaintenanceMode := MaintenanceMode i;
     MachineLabels := MachineLabels i |}.

Definition set_Schematic (v : option MachineStatusSpec_Schematic.t) (i : Info) : Info :=
  {| TalosVersion := TalosVersion i; Arch := Arch i; Hostname := Hostname i; Domainname := Domainname i;
     Addresses := Addresses i; DefaultGateways := DefaultGateways i; NetworkLinks := NetworkLinks i;
     Processors := Processors i; MemoryModules := MemoryModules i; Blockdevices := Blockdevices i;
     PlatformMetadata := PlatformMetadata i; Schematic := v;
     ImageLabels := ImageLabels i; MaintenanceMode := MaintenanceMode i;
     MachineLabels := MachineLabels i |}.

Definition set_ImageLabels (v : option (gmap string string)) (i : Info) : Info :=
  {| TalosVersion := TalosVersion i; Arch := Arch i; Hostname := Hostname i; Domainname := Domainname i;
     Addresses := Addresses i; DefaultGateways := DefaultGateways i; NetworkLinks := NetworkLinks i;
     Processors := Processors i; MemoryModules := MemoryModules i; Blockdevices := Blockdevices i;
     PlatformMetadata := PlatformMetadata i; Schematic := Schematic i;
     ImageLabels := v; MaintenanceMode := MaintenanceMode i;
     MachineLabels := MachineLabels i |}.

(** [info.Schematic] holds a pointer: once [machineSchematic] has been
    stored there, a store through [machineSchematic] is a store into the
    object [info.Schematic] points to. *)
Definition through_Schematic (f : MachineStatusSpec_Schematic.t → MachineStatusSpec_Schematic.t) (i : Info) : Info :=
  set_Schematic (f <$> Schematic i) i.

Definition store_Id (v : string) (s : MachineStatusSpec_Schematic.t) : MachineStatusSpec_Schematic.t :=
  {| MachineStatusSpec_Schematic.Id := v; MachineStatusSpec_Schematic.Invalid := MachineStatusSpec_Schematic.Invalid s |}.

Definition store_Invalid (v : bool) (s : MachineStatusSpec_Schematic.t) : MachineStatusSpec_Schematic.t :=
  {| MachineStatusSpec_Schematic.Id := MachineStatusSpec_Schematic.Id s; MachineStatusSpec_Schematic.Invalid := v |}.

(** ** The node behind the client

    What the calls made through [c *client.Client] give back during one
    run of a poller: the two unary calls, and the list of resources of
    each type a resource poller scans. *)
Record Client := {
  Client_Version : rpc_result machineapi.VersionResponse;
  Client_Disks : rpc_result storage.DisksResponse;
  List_HostnameStatus : rpc_result (list HostnameStatus.t);
  List_RouteStatus : rpc_result (list RouteStatus.t);
  List_NodeAddress : rpc_result (list NodeAddress.t);
  List_LinkStatus : rpc_result (list LinkStatus.t);
  List_Processor : rpc_result (list Processor.t);
  List_MemoryModule : rpc_result (list MemoryModule.t);
  List_PlatformMetadata : rpc_result (list PlatformMetadataSpec.t);
  List_MetaKey : rpc_result (list MetaKey.t);
  List_ExtensionStatus : rpc_result (list ExtensionStatus.t)
}.

(** ** What the pollers take from other packages

    Constants and functions of the Talos machinery library and of Omni
    packages outside this file.  The pollers are verified for every
    choice of them. *)
Class Machinery := {
  (** [netip.Addr.String], [netip.Prefix.String] *)
  Addr_String : netip.Addr → string;
  Prefix_String : netip.Prefix → string;
  (** [nethelpers.HardwareAddr.String] *)
  HardwareAddr_String : nethelpers.HardwareAddr → string;
  (** [network.IsULA(addr, purpose)] and [network.ULASideroLink] *)
  IsULA : netip.Addr → N → bool;
  ULASideroLink : N;
  (** [network.NodeAddressCurrentID], [k8s.NodeAddressFilterNoK8s],
      [network.FilteredNodeAddressID(kind, filter)] *)
  NodeAddressCurrentID : string;
  NodeAddressFilterNoK8s : string;
  FilteredNodeAddressID : string → string → string;
  (** [network.LinkStatusSpec.Physical] *)
  Physical : LinkStatus.t → bool;
  (** the resource type names *)
  HostnameStatusType : string;
  RouteStatusType : string;
  NodeAddressType : string;
  LinkStatusType : string;
  ProcessorType : string;
  MemoryModuleType : string;
  PlatformMetadataType : string;
  MetaKeyType : string;
  ExtensionStatusType : string;
  (** [runtime.MetaKeyTagToID] and [meta.LabelsMeta] *)
  MetaKeyTagToID : N → string;
  LabelsMeta : N;
  (** [meta.ParseLabels]: the decoded blob, or the decoding error *)
  ParseLabels : string → meta_ImageLabels.t + error;
  (** [talos.GetSchematicID(ctx, c)]: the Go pair [(id, err)] *)
  GetSchematicID : Client → string * option error
}.

(** ** Scanning the resources of a type *)

(** Modelled from the spec: the loop of [forEachResource] over the listed
    resources.  The callback runs on each one in turn, on the [Info] the
    previous ones left, and its first error ends the scan. *)
Fixpoint scan {T} (callback : T → Info → Info * option error)
    (items : list T) (info : Info) : Info * option error :=
  match items with
  | [] => (info, None)
  | r :: rest =>
      match callback r info with
      | (info', Some err) => (info', Some err)
      | (info', None) => scan callback rest info'
      end
  end.

(** Modelled from the spec: [forEachResource] is called by the resource
    pollers and defined in another file of the package.  The specification
    says of a resource poller that it "scans matching resources and
    updates a distinct slice of Info": the resources of the namespace and
    type are listed on the node; when listing fails its error is returned
    and the callback never runs, otherwise the callback scans the list.
    The namespace and type arguments are the choice of the list taken
    from the client. *)
Definition forEachResource {T} (listed : rpc_result (list T))
    (callback : T → Info → Info * option error) (info : Info) : Info * option error :=
  match listed with
  | RpcErr err => (info, Some err)
  | RpcOk items => scan callback items info
  end.

(** ** The pollers *)

Definition machinePollFunction : Type := Client → Info → Info * option error.

(** What [poll] does: it returns what the poller returns, or panics. *)
Inductive outcome :=
| Returns (r : Info * option error)
| Panics (unknown_poller : string).

(** [merged(m1, m2)]: a clone of [m1] into which every entry of [m2] is
    copied. *)
Definition merged {V} (m1 m2 : gmap string V) : gmap string V :=
  map_fold (λ k v res, <[k := v]> res) m1 m2.

Section Pollers.
Context `{M : Machinery}.

(** The body of [pollVersion] after [versionResp, err := c.Version(ctx)],
    on any Go pair: the type of the call lets a response come back
    together with an error, and after an [Unimplemented] error the body
    goes on to the loop over the messages of the response. *)
Definition pollVersion_on (versionResp : option machineapi.VersionResponse)
    (err : option error) (info : Info) : Info * option error :=
  if bool_decide (err ≠ None) && bool_decide (StatusCode err ≠ codes.Unimplemented)
  then (info, err)
  else
    (foldl (λ info msg,
         let info := set_TalosVersion (Some (machineapi.GetTag (machineapi.GetVersion msg))) info in
         set_Arch (Some (machineapi.GetArch (machineapi.GetVersion msg))) info)
       info (machineapi.GetMessages versionResp),
     None).

Definition pollVersion : machinePollFunction := λ c info,
  let '(versionResp, err) := returned (Client_Version c) in
  pollVersion_on versionResp err info.

Definition pollHostname_callback (r : HostnameStatus.t) (info : Info) : Info * option error :=
  let info := set_Hostname (Some (HostnameStatus.Hostname r)) info in
  let info := set_Domainname (Some (HostnameStatus.Domainname r)) info in
  (info, None).

Definition pollHostname : machinePollFunction := λ c info,
  forEachResource (List_HostnameStatus c) pollHostname_callback info.

Definition filterAddresses (maintenanceMode : bool) : NodeAddress.t → bool :=
  if maintenanceMode
  then λ r, bool_decide (NodeAddress.ID r = NodeAddressCurrentID)
  else λ r, bool_decide
              (NodeAddress.ID r = FilteredNodeAddressID NodeAddressCurrentID NodeAddressFilterNoK8s).

(** The loop of [pollAddresses] over the addresses of the resource. *)
Definition collectAddresses (addrs : list netip.Prefix) (info : Info) : Info :=
  foldl (λ info addr,
      if IsULA (netip.PrefixAddr addr) ULASideroLink then info
      else set_Addresses (append (Addresses info) (Prefix_String addr)) info)
    info addrs.

Definition pollAddresses_callback (r : NodeAddress.t) (info : Info) : Info * option error :=
  if (if MaintenanceMode info
      then bool_decide (NodeAddress.ID r ≠ NodeAddressCurrentID)
      else bool_decide
             (NodeAddress.ID r ≠ FilteredNodeAddressID NodeAddressCurrentID NodeAddressFilterNoK8s))
  then (info, None)
  else
    let info := set_Addresses make_empty info in
    (collectAddresses (NodeAddress.Addresses r) info, None).

Definition pollAddresses : machinePollFunction := λ c info,
  forEachResource (List_NodeAddress c) pollAddresses_callback info.

Definition filterRoutes (r : RouteStatus.t) : bool :=
  value_IsZero netip.Prefix_zero (RouteStatus.Destination r)
  && netip.IsValid (RouteStatus.Gateway r)
  && bool_decide (RouteStatus.Scope r = nethelpers.ScopeGlobal).

Definition pollRoutes_callback (r : RouteStatus.t) (info : Info) : Info * option error :=
  if value_IsZero netip.Prefix_zero (RouteStatus.Destination r)
     && netip.IsValid (RouteStatus.Gateway r)
     && bool_decide (RouteStatus.Scope r = nethelpers.ScopeGlobal)
  then (set_DefaultGateways
          (append (DefaultGateways info) (Addr_String (RouteStatus.Gateway r))) info, None)
  else (info, None).

Definition pollRoutes : machinePollFunction := λ c info,
  let info := set_DefaultGateways None info in
  forEachResource (List_RouteStatus c) pollRoutes_callback info.

Definition filterNetworkLinks (r : LinkStatus.t) : bool := Physical r.

Definition networkLinkStatus (r : LinkStatus.t) : MachineStatusSpec_NetworkLinkStatus.t :=
  {| MachineStatusSpec_NetworkLinkStatus.LinuxName := LinkStatus.ID r;
     MachineStatusSpec_NetworkLinkStatus.HardwareAddress := HardwareAddr_String (LinkStatus.HardwareAddr r);
     MachineStatusSpec_NetworkLinkStatus.SpeedMbps := uint32 (LinkStatus.SpeedMegabits r);
     MachineStatusSpec_NetworkLinkStatus.LinkUp := LinkStatus.LinkState r;
     MachineStatusSpec_NetworkLinkStatus.Description :=
       Sprintf_s_s (LinkStatus.Vendor r) (LinkStatus.Product r) |}.

Definition pollNetworkLinks_callback (r : LinkStatus.t) (info : Info) : Info * option error :=
  if negb (Physical r) then (info, None)
  else (set_NetworkLinks (append (NetworkLinks info) (networkLinkStatus r)) info, None).

Definition pollNetworkLinks : machinePollFunction := λ c info,
  let info := set_NetworkLinks None info in
  forEachResource (List_LinkStatus c) pollNetworkLinks_callback info.

Definition hwProcessor (r : Processor.t) : MachineStatusSpec_Processor.t :=
  {| MachineStatusSpec_Processor.CoreCount := Processor.CoreCount r;
     MachineStatusSpec_Processor.ThreadCount := Processor.ThreadCount r;
     MachineStatusSpec_Processor.Frequency := Processor.MaxSpeed r;
     MachineStatusSpec_Processor.Manufacturer := Processor.Manufacturer r;
     MachineStatusSpec_Processor.Description :=
       Sprintf_s_s (Processor.Manufacturer r) (Processor.ProductName r) |}.

Definition pollProcessors_callback (r : Processor.t) (info : Info) : Info * option error :=
  if bool_decide (Processor.CoreCount r = 0%N) || bool_decide (Processor.MaxSpeed r = 0%N)
  then (info, None)
  else (set_Processors (append (Processors info) (hwProcessor r)) info, None).

Definition pollProcessors : machinePollFunction := λ c info,
  let info := set_Processors None info in
  forEachResource (List_Processor c) pollProcessors_callback info.

Definition hwMemoryModule (r : MemoryModule.t) : MachineStatusSpec_MemoryModule.t :=
  {| MachineStatusSpec_MemoryModule.SizeMb := MemoryModule.Size r;
     MachineStatusSpec_MemoryModule.Description := MemoryModule.Manufacturer r |}.

Definition pollMemory_callback (r : MemoryModule.t) (info : Info) : Info * option error :=
  if bool_decide (MemoryModule.Size r = 0%N) then (info, None)
  else (set_MemoryModules (append (MemoryModules info) (hwMemoryModule r)) info, None).

Definition pollMemory : machinePollFunction := λ c info,
  let info := set_MemoryModules None info in
  forEachResource (List_MemoryModule c) pollMemory_callback info.

Definition pollPlatformMetadata_callback (r : PlatformMetadataSpec.t) (info : Info)
    : Info * option error :=
  (set_PlatformMetadata
     (Some {| MachineStatusSpec_PlatformMetadata.Platform := PlatformMetadataSpec.Platform r;
              MachineStatusSpec_PlatformMetadata.Hostname := PlatformMetadataSpec.Hostname r;
              MachineStatusSpec_PlatformMetadata.Region := PlatformMetadataSpec.Region r;
              MachineStatusSpec_PlatformMetadata.Zone := PlatformMetadataSpec.Zone r;
              MachineStatusSpec_PlatformMetadata.InstanceType := PlatformMetadataSpec.InstanceType r;
              MachineStatusSpec_PlatformMetadata.InstanceId := PlatformMetadataSpec.InstanceID r;
              MachineStatusSpec_PlatformMetadata.ProviderId := PlatformMetadataSpec.ProviderID r;
              MachineStatusSpec_PlatformMetadata.Spot := PlatformMetadataSpec.Spot r |}) info,
   None).

Definition pollPlatformMetadata : machinePollFunction := λ c info,
  forEachResource (List_PlatformMetadata c) pollPlatformMetadata_callback info.

Definition blockDevice (disk : storage.Disk) : MachineStatusSpec_BlockDevice.t :=
  {| MachineStatusSpec_BlockDevice.Size := storage.GetSize disk;
     MachineStatusSpec_BlockDevice.Model := storage.GetModel disk;
     MachineStatusSpec_BlockDevice.LinuxName := storage.GetDeviceName disk;
     MachineStatusSpec_BlockDevice.Name := storage.GetName disk;
     MachineStatusSpec_BlockDevice.Serial := storage.GetSerial disk;
     MachineStatusSpec_BlockDevice.Uuid := storage.GetUuid disk;
     MachineStatusSpec_BlockDevice.Wwid := storage.GetWwid disk;
     MachineStatusSpec_BlockDevice.Type_ := storage.DiskType_String (storage.GetType disk);
     MachineStatusSpec_BlockDevice.BusPath := storage.GetBusPath disk;
     MachineStatusSpec_BlockDevice.SystemDisk := storage.GetSystemDisk disk |}.

Definition pollDisks : machinePollFunction := λ c info,
  let info := set_Blockdevices None info in
  let '(disksResp, err) := returned (Client_Disks c) in
  match err with
  | Some e => (info, Some e)
  | None =>
      (foldl (λ info msg,
           foldl (λ info disk,
               set_Blockdevices (append (Blockdevices info) (blockDevice disk)) info)
             info (storage.GetDisks msg))
         info (storage.GetMessages disksResp),
       None)
  end.

(** The [delete] loop of [pollMeta] over the keys of the machine labels. *)
Definition maskLabels (keys : list string) (labels : gmap string string) : gmap string string :=
  foldl (λ labels k, delete k labels) labels keys.

(** The filtering step of [pollMeta]: it runs only when both the labels
    and [info.MachineLabels] are not [nil]. *)
Definition filterMachineLabels (machineLabels : option omni_MachineLabels.t)
    (labels : option (gmap string string)) : option (gmap string string) :=
  match labels, machineLabels with
  | Some l, Some ml => Some (maskLabels (omni_MachineLabels.Keys ml) l)
  | _, _ => labels
  end.

(** The labels [pollMeta] takes from the decoded blob: the legacy shape
    when [Labels] is [nil]. *)
Definition decodedLabels (imageLabels : meta_ImageLabels.t) : option (gmap string string) :=
  match meta_ImageLabels.Labels imageLabels with
  | None => meta_ImageLabels.LegacyLabels imageLabels
  | Some l => Some l
  end.

Definition pollMeta_callback (metaKey : MetaKey.t) (info : Info) : Info * option error :=
  if bool_decide (MetaKey.ID metaKey ≠ MetaKeyTagToID LabelsMeta) then (info, None)
  else
    match ParseLabels (MetaKey.Value metaKey) with
    | inr err => (info, Some err)
    | inl imageLabels =>
        let labels := decodedLabels imageLabels in
        let labels := filterMachineLabels (MachineLabels info) labels in
        (set_ImageLabels labels info, None)
    end.

Definition pollMeta : machinePollFunction := λ c info,
  forEachResource (List_MetaKey c) pollMeta_callback info.

Definition pollExtensions : machinePollFunction := λ c info,
  let info := set_Schematic (Some MachineStatusSpec_Schematic.empty) info in
  let '(id, err) := GetSchematicID c in
  let info := through_Schematic (store_Id id) info in
  match err with
  | Some e =>
      if errors_Is e ErrInvalidSchematic
      then (through_Schematic (store_Invalid true) info, None)
      else (info, Some e)
  | None => (info, None)
  end.

Definition resourcePollers : gmap string machinePollFunction :=
  list_to_map [
    (HostnameStatusType, pollHostname);
    (RouteStatusType, pollRoutes);
    (NodeAddressType, pollAddresses);
    (LinkStatusType, pollNetworkLinks);
    (ProcessorType, pollProcessors);
    (MemoryModuleType, pollMemory);
    (PlatformMetadataType, pollPlatformMetadata);
    (MetaKeyType, pollMeta);
    (ExtensionStatusType, pollExtensions)
  ].

Definition machinePollers : gmap string machinePollFunction :=
  list_to_map [
    ("version", pollVersion);
    ("disks", pollDisks)
  ].

Definition allPollers : gmap string machinePollFunction :=
  merged resourcePollers machinePollers.

Definition poll (poller : string) (c : Client) (info : Info) : outcome :=
  match allPollers !! poller with
  | None => Panics poller
  | Some f => Returns (f c info)
  end.

End Pollers.

(** ** Vocabulary of the statements *)

Section Vocabulary.
Context `{M : Machinery}.

(** The addresses [pollAddresses] keeps. *)
Definition outside_SideroLink (addr : netip.Prefix) : bool :=
  negb (IsULA (netip.PrefixAddr addr) ULASideroLink).


(** The meta key [pollMeta] consumes. *)
Definition labels_meta_key (metaKey : MetaKey.t) : bool :=
  bool_decide (MetaKey.ID metaKey = MetaKeyTagToID LabelsMeta).

End Vocabulary.

(** The processors [pollProcessors] records. *)
Definition reported_processor (r : Processor.t) : bool :=
  negb (bool_decide (Processor.CoreCount r = 0%N) || bool_decide (Processor.MaxSpeed r = 0%N)).

(** The memory modules [pollMemory] records. *)
Definition reported_memory (r : MemoryModule.t) : bool :=
  negb (bool_decide (MemoryModule.Size r = 0%N)).

(** ** Slices of the snapshot

    The fields of [Info] a poller stores into, as a read and a store. *)
Record lens (A : Type) : Type := Lens { view : Info → A; store : A → Info → Info }.
Arguments Lens {A} view store.
Arguments view {A} l i.
Arguments store {A} l v i.

Definition version_slice : lens (option string * option string) :=
  Lens (λ i, (TalosVersion i, Arch i)) (λ v i, set_Arch v.2 (set_TalosVersion v.1 i)).

Definition hostname_slice : lens (option string * option string) :=
  Lens (λ i, (Hostname i, Domainname i)) (λ v i, set_Domainname v.2 (set_Hostname v.1 i)).

Definition addresses_slice : lens (slice string) := Lens Addresses set_Addresses.

Definition gateways_slice : lens (slice string) := Lens DefaultGateways set_DefaultGateways.

Definition links_slice : lens (slice MachineStatusSpec_NetworkLinkStatus.t) :=
  Lens NetworkLinks set_NetworkLinks.

Definition processors_slice : lens (slice MachineStatusSpec_Processor.t) :=
  Lens Processors set_Processors.

Definition memory_slice : lens (slice MachineStatusSpec_MemoryModule.t) :=
  Lens MemoryModules set_MemoryModules.

Definition disks_slice : lens (slice MachineStatusSpec_BlockDevice.t) :=
  Lens Blockdevices set_Blockdevices.

Definition platform_slice : lens (option MachineStatusSpec_PlatformMetadata.t) :=
  Lens PlatformMetadata set_PlatformMetadata.

Definition schematic_slice : lens (option MachineStatusSpec_Schematic.t) :=
  Lens Schematic set_Schematic.

Definition labels_slice : lens (option (gmap string string)) :=
  Lens ImageLabels set_ImageLabels.

(** Reading back what was stored, storing twice, storing what is there. *)
Definition lawful {A} (L : lens A) : Prop :=
  (∀ v i, view L (store L v i) = v)
  ∧ (∀ v w i, store L v (store L w i) = store L v i)
  ∧ (∀ i, store L (view L i) i = i).

(** A change [s] of the snapshot that leaves alone the slice [L] and the
    two fields the pollers read, [MaintenanceMode] and [MachineLabels]. *)
Definition foreign {A} (L : lens A) (s : Info → Info) : Prop :=
  (∀ v i, s (store L v i) = store L v (s i))
  ∧ (∀ i, view L (s i) = view L i)
  ∧ (∀ i, MaintenanceMode (s i) = MaintenanceMode i)
  ∧ (∀ i, MachineLabels (s i) = MachineLabels i).

(** A run [f] of a poller that stores into the slice [L] only, and that
    goes the same way whatever the rest of the snapshot holds. *)
Definition local {A} (L : lens A) (f : Info → Info * option error) : Prop :=
  (∀ i, (f i).1 = store L (view L (f i).1) i)
  ∧ (∀ s, foreign L s → ∀ i, f (s i) = (s (f i).1, (f i).2)).

(** A run [f] that leaves in the slice [L] a value, and returns an error,
    that do not depend on the snapshot it starts from. *)
Definition settles {A} (L : lens A) (f : Info → Info * option error) : Prop :=
  ∃ v e, ∀ i, f i = (store L v i, e).

Section Stored.
Context `{M : Machinery}.

(** What the callbacks of the overwriting pollers store. *)
Definition hostname_stored (r : HostnameStatus.t) (_ : Info)
    : option (option string * option string) * option error :=
  (Some (Some (HostnameStatus.Hostname r), Some (HostnameStatus.Domainname r)), None).

Definition platform_stored (r : PlatformMetadataSpec.t) (_ : Info)
    : option (option MachineStatusSpec_PlatformMetadata.t) * option error :=
  (Some (Some {| MachineStatusSpec_PlatformMetadata.Platform := PlatformMetadataSpec.Platform r;
                 MachineStatusSpec_PlatformMetadata.Hostname := PlatformMetadataSpec.Hostname r;
                 MachineStatusSpec_PlatformMetadata.Region := PlatformMetadataSpec.Region r;
                 MachineStatusSpec_PlatformMetadata.Zone := PlatformMetadataSpec.Zone r;
                 MachineStatusSpec_PlatformMetadata.InstanceType :=
                   PlatformMetadataSpec.InstanceType r;
                 MachineStatusSpec_PlatformMetadata.InstanceId :=
                   PlatformMetadataSpec.InstanceID r;
                 MachineStatusSpec_PlatformMetadata.ProviderId :=
                   PlatformMetadataSpec.ProviderID r;
                 MachineStatusSpec_PlatformMetadata.Spot := PlatformMetadataSpec.Spot r |}),
   None).

Definition addresses_stored (r : NodeAddress.t) (i : Info)
    : option (slice string) * option error :=
  if filterAddresses (MaintenanceMode i) r
  then (Some (Some (Prefix_String
                      <$> List.filter outside_SideroLink (NodeAddress.Addresses r))), None)
  else (None, None).

Definition labels_stored (metaKey : MetaKey.t) (i : Info)
    : option (option (gmap string string)) * option error :=
  if labels_meta_key metaKey
  then match ParseLabels (MetaKey.Value metaKey) with
       | inr err => (None, Some err)
       | inl imageLabels =>
           (Some (filterMachineLabels (MachineLabels i) (decodedLabels imageLabels)), None)
       end
  else (None, None).

(** The entries of [allPollers]. *)
Definition registered : list (string * machinePollFunction) := [
  (HostnameStatusType, pollHostname);
  (RouteStatusType, pollRoutes);
  (NodeAddressType, pollAddresses);
  (LinkStatusType, pollNetworkLinks);
  (ProcessorType, pollProcessors);
  (MemoryModuleType, pollMemory);
  (PlatformMetadataType, pollPlatformMetadata);
  (MetaKeyType, pollMeta);
  (ExtensionStatusType, pollExtensions);
  ("version", pollVersion);
  ("disks", pollDisks)
].

End Stored.

(** Two slices with no field in common. *)
Definition apart {A B} (L1 : lens A) (L2 : lens B) : Prop :=
  (∀ v, foreign L2 (store L1 v)) ∧ (∀ w, foreign L1 (store L2 w)).

(** ** The meta values of a schematic (CreateSchematic) *)

(** [schematic.MetaValue]: the key is a [uint8]. *)
Module MetaValue.
Record t := { Key : N; Value : string }.
End MetaValue.

(** The comparison [CreateSchematic] passes to [slices.SortFunc]. *)
Definition compareMeta (a b : MetaValue.t) : Z :=
  if (MetaValue.Key a <? MetaValue.Key b)%N then 1
  else if (MetaValue.Key b <? MetaValue.Key a)%N then -1
  else 0.

(** [slices.IsSortedFunc(x, cmp)]: no element compares below the one
    before it.  This is what [slices.SortFunc(x, cmp)] establishes, on a
    rearrangement of [x]. *)
Fixpoint IsSortedFunc {E} (cmp : E → E → Z) (x : list E) : bool :=
  match x with
  | a :: rest =>
      match rest with
      | b :: _ => negb (cmp b a <? 0)%Z && IsSortedFunc cmp rest
      | [] => true
      end
  | [] => true
  end.

(** The meta value appended for an entry of [request.MetaValues]: the
    key converted to [uint8]. *)
Definition metaValue (entry : N * string) : MetaValue.t :=
  {| MetaValue.Key := (entry.1 mod 256)%N; MetaValue.Value := entry.2 |}.

Section CreateSchematic.
Context `{M : Machinery}.
(** [meta.CanSetMetaKey], of the package [client/pkg/meta]. *)
Variable CanSetMetaKey : Z → bool.

(** The loop of [CreateSchematic] over [request.MetaValues], a map from
    [uint32] keys to strings, taken in the order [entries] in which the
    map is ranged over; [meta] is [customization.Meta] so far. *)
Fixpoint collectMeta (entries : list (N * string)) (meta : list MetaValue.t)
    : list MetaValue.t + error :=
  match entries with
  | [] => inl meta
  | (key, value) :: rest =>
      if negb (CanSetMetaKey (Z.of_N key))
      then inr (StatusError codes.InvalidArgument
                  ("meta key " +:+ MetaKeyTagToID (key mod 256)
                   +:+ " is not allowed to be set in the schematic, as it's reserved by Talos"))
      else collectMeta rest
             (meta ++ [{| MetaValue.Key := (key mod 256)%N; MetaValue.Value := value |}])
  end.

End CreateSchematic.

(** ** A node for the examples

    One choice of the outside constants and functions, on which the
    pollers run by computation. *)
Module Example.

Definition digit (n : N) : string := String (Ascii.ascii_of_N (48 + n mod 10)) "".

Definition decimal (n : N) : string :=
  (if (n <? 10)%N then "" else if (n <? 100)%N then digit (n / 10)
   else digit (n / 100) +:+ digit (n / 10))
  +:+ digit n.

Definition hex_digit (n : N) : string :=
  let d := (n mod 16)%N in
  String (Ascii.ascii_of_N (if (d <? 10)%N then 48 + d else 87 + d)) "".

Definition octet (w : N) (i : N) : N := (N.shiftr w (8 * i) mod 256)%N.

Definition string4 (w : N) : string :=
  decimal (octet w 3) +:+ "." +:+ decimal (octet w 2) +:+ "."
  +:+ decimal (octet w 1) +:+ "." +:+ decimal (octet w 0).

(** The [i]-th 16-bit group of an address, from the highest. *)
Definition v6u16 (a : netip.Addr) (i : N) : N :=
  (N.shiftr (if (i <? 4)%N then netip.hi a else netip.lo a) ((3 - i mod 4) * 16) mod 65536)%N.

(** A group in hexadecimal, without leading zeros. *)
Definition hex16 (x : N) : string :=
  (if (x <? 4096)%N then "" else hex_digit (x / 4096))
  +:+ (if (x <? 256)%N then "" else hex_digit (x / 256))
  +:+ (if (x <? 16)%N then "" else hex_digit (x / 16))
  +:+ hex_digit x.

Fixpoint zero_run (groups : list N) : N :=
  match groups with
  | 0%N :: groups => (1 + zero_run groups)%N
  | _ => 0%N
  end.

(** The first longest run of two or more zero groups, as the indices of
    its start and of its end; [(255, 255)] when there is none. *)
Fixpoint zero_groups (groups : list N) (i : N) (best : N * N) : N * N :=
  match groups with
  | [] => best
  | _ :: rest =>
      let l := zero_run groups in
      zero_groups rest (i + 1)%N
        (if (2 <=? l)%N && (best.2 - best.1 <? l)%N then (i, (i + l)%N) else best)
  end.

Fixpoint groups_string (groups : list N) (i zeroStart zeroEnd : N) : string :=
  match groups with
  | [] => ""
  | g :: rest =>
      (if (zeroStart <=? i)%N && (i <? zeroEnd)%N
       then (if (i =? zeroStart)%N then "::" else "")
       else (if (i =? 0)%N || (i =? zeroEnd)%N then "" else ":") +:+ hex16 g)
      +:+ groups_string rest (i + 1)%N zeroStart zeroEnd
  end.

Definition string6 (a : netip.Addr) : string :=
  if (netip.hi a =? 0)%N && (N.shiftr (netip.lo a) 32 =? 65535)%N
  then "::ffff:" +:+ string4 (netip.lo a)
  else
    let groups := v6u16 a <$> [0; 1; 2; 3; 4; 5; 6; 7]%N in
    let run := zero_groups groups 0%N (255, 255)%N in
    groups_string groups 0%N run.1 run.2.

Definition addr_string (a : netip.Addr) : string :=
  match netip.z a with
  | netip.z0 => "invalid IP"
  | netip.z4 => string4 (netip.lo a)
  | netip.z6noz => string6 a
  | netip.z6 name => string6 a +:+ "%" +:+ name
  end.

Definition prefix_string (p : netip.Prefix) : string :=
  if (netip.bitsPlusOne p =? 0)%N then "invalid Prefix"
  else addr_string (netip.ip p) +:+ "/" +:+ decimal (netip.bitsPlusOne p - 1).

Definition hardware_addr_string (a : nethelpers.HardwareAddr) : string :=
  foldr (λ b acc,
      hex_digit (b / 16) +:+ hex_digit b +:+ (if decide (acc = "") then "" else ":" +:+ acc))
    "" a.

Definition is_ula (a : netip.Addr) (purpose : N) : bool :=
  match netip.z a with
  | netip.z0 | netip.z4 => false
  | _ => bool_decide (octet (netip.hi a) 7 = 253%N) && bool_decide (octet (netip.hi a) 0 = purpose)
  end.

Definition labels_blob (s : string) : meta_ImageLabels.t + error :=
  if decide (s = "machineLabels: {label1: value1, label2: override}")
  then inl {| meta_ImageLabels.Labels := Some {[ "label1" := "value1"; "label2" := "override" ]};
              meta_ImageLabels.LegacyLabels := None |}
  else if decide (s = "machineInitialLabels: {zone: a}")
  then inl {| meta_ImageLabels.Labels := None;
              meta_ImageLabels.LegacyLabels := Some {[ "zone" := "a" ]} |}
  else inr (ErrorNew "yaml: cannot decode").

Definition SchematicIDExtensionName : string := "schematic".
Definition defaultSchematicID : string :=
  "376567988ad370138ad8b2698212367b8edcb69b5fd68c80be1f2ec7d603b4ba".

(** Modelled from the spec: the schematic resolver [talos.GetSchematicID]
    is defined in the package [internal/talos].  If an extension entry's
    description is the schematic-id marker the id is that entry's version;
    else if there are extension entries (none of them recognised here) the
    schematic is invalid; else the id is the default one.  A failed
    listing is returned as it is. *)
Definition resolve_schematic (c : Client) : string * option error :=
  match List_ExtensionStatus c with
  | RpcErr err => ("", Some err)
  | RpcOk exts =>
      match List.find (λ e, bool_decide (ExtensionStatus.Description e = SchematicIDExtensionName))
              exts with
      | Some e => (ExtensionStatus.Version e, None)
      | None =>
          match exts with
          | [] => (defaultSchematicID, None)
          | _ => ("", Some (Errorf "unknown extensions" ErrInvalidSchematic))
          end
      end
  end.

#[local] Instance node : Machinery := {|
  Addr_String := addr_string;
  Prefix_String := prefix_string;
  HardwareAddr_String := hardware_addr_string;
  IsULA := is_ula;
  ULASideroLink := 3;
  NodeAddressCurrentID := "current";
  NodeAddressFilterNoK8s := "no-k8s";
  FilteredNodeAddressID := λ kind filter, kind +:+ "-" +:+ filter;
  Physical := λ r, bool_decide (LinkStatus.Type_ r = 1%N) && bool_decide (LinkStatus.Kind r = "");
  HostnameStatusType := "HostnameStatuses.net.talos.dev";
  RouteStatusType := "RouteStatuses.net.talos.dev";
  NodeAddressType := "NodeAddresses.net.talos.dev";
  LinkStatusType := "LinkStatuses.net.talos.dev";
  ProcessorType := "Processors.hardware.talos.dev";
  MemoryModuleType := "MemoryModules.hardware.talos.dev";
  PlatformMetadataType := "PlatformMetadatas.talos.dev";
  MetaKeyType := "MetaKeys.runtime.talos.dev";
  ExtensionStatusType := "ExtensionStatuses.runtime.talos.dev";
  MetaKeyTagToID := λ tag, "0x" +:+ hex_digit (tag / 16) +:+ hex_digit tag;
  LabelsMeta := 12;
  ParseLabels := labels_blob;
  GetSchematicID := resolve_schematic
|}.

(** A node every call to which fails with [err]. *)
Definition unreachable (err : error) : Client :=
  {| Client_Version := RpcErr err; Client_Disks := RpcErr err;
     List_HostnameStatus := RpcErr err; List_RouteStatus := RpcErr err;
     List_NodeAddress := RpcErr err; List_LinkStatus := RpcErr err;
     List_Processor := RpcErr err; List_MemoryModule := RpcErr err;
     List_PlatformMetadata := RpcErr err; List_MetaKey := RpcErr err;
     List_ExtensionStatus := RpcErr err |}.

(** A node with nothing to report. *)
Definition quiet : Client :=
  {| Client_Version := RpcOk {| machineapi.VMessages := [] |};
     Client_Disks := RpcOk {| storage.DMessages := [] |};
     List_HostnameStatus := RpcOk []; List_RouteStatus := RpcOk [];
     List_NodeAddress := RpcOk []; List_LinkStatus := RpcOk [];
     List_Processor := RpcOk []; List_MemoryModule := RpcOk [];
     List_PlatformMetadata := RpcOk []; List_MetaKey := RpcOk [];
     List_ExtensionStatus := RpcOk [] |}.

(** The snapshot of a task that has not polled yet. *)
Definition fresh : Info :=
  {| TalosVersion := None; Arch := None; Hostname := None; Domainname := None;
     Addresses := None; DefaultGateways := None; NetworkLinks := None;
     Processors := None; MemoryModules := None; Blockdevices := None;
     PlatformMetadata := None; Schematic := None; ImageLabels := None;
     MaintenanceMode := false; MachineLabels := None |}.

End Example.

(** ** Machines and snapshots for the examples *)

Module Runs.
Import Example.

Definition gw1 : netip.Addr := {| netip.hi := 0; netip.lo := 3232235777; netip.z := netip.z4 |}.
Definition lan : netip.Prefix := {| netip.ip := gw1; netip.bitsPlusOne := 25 |}.

Definition routes : list RouteStatus.t := [
  {| RouteStatus.ID := "inet4/192.168.1.1//1024"; RouteStatus.Destination := netip.Prefix_zero;
     RouteStatus.Gateway := gw1; RouteStatus.Scope := nethelpers.ScopeGlobal |};
  {| RouteStatus.ID := "inet4//192.168.1.0/24/1024"; RouteStatus.Destination := lan;
     RouteStatus.Gateway := netip.Addr_zero; RouteStatus.Scope := 253%N |};
  {| RouteStatus.ID := "inet4/192.168.1.1//2048"; RouteStatus.Destination := netip.Prefix_zero;
     RouteStatus.Gateway := gw1; RouteStatus.Scope := 253%N |}
].

Definition links : list LinkStatus.t := [
  {| LinkStatus.ID := "eth0"; LinkStatus.HardwareAddr := [2; 0; 23; 1; 2; 3]%N;
     LinkStatus.SpeedMegabits := 1000; LinkStatus.LinkState := true;
     LinkStatus.Vendor := "Intel"; LinkStatus.Product := "I210";
     LinkStatus.Type_ := 1; LinkStatus.Kind := "" |};
  {| LinkStatus.ID := "bond0"; LinkStatus.HardwareAddr := [2; 0; 23; 1; 2; 3]%N;
     LinkStatus.SpeedMegabits := -1; LinkStatus.LinkState := true;
     LinkStatus.Vendor := ""; LinkStatus.Product := "";
     LinkStatus.Type_ := 1; LinkStatus.Kind := "bond" |}
].

Definition processors : list Processor.t := [
  {| Processor.ID := "0"; Processor.CoreCount := 8; Processor.ThreadCount := 16;
     Processor.MaxSpeed := 3600; Processor.Manufacturer := "AMD";
     Processor.ProductName := "Ryzen" |};
  {| Processor.ID := "1"; Processor.CoreCount := 0; Processor.ThreadCount := 0;
     Processor.MaxSpeed := 0; Processor.Manufacturer := ""; Processor.ProductName := "" |}
].

Definition memory : list MemoryModule.t := [
  {| MemoryModule.ID := "0"; MemoryModule.Size := 16384; MemoryModule.Manufacturer := "Kingston" |};
  {| MemoryModule.ID := "1"; MemoryModule.Size := 0; MemoryModule.Manufacturer := "" |}
].

Definition sidero : netip.Prefix :=
  {| netip.ip := {| netip.hi := 18230571291595767811; netip.lo := 1; netip.z := netip.z6noz |};
     netip.bitsPlusOne := 65 |}.

Definition addresses : list NodeAddress.t := [
  {| NodeAddress.ID := "current"; NodeAddress.Addresses := [lan; sidero] |};
  {| NodeAddress.ID := "current-no-k8s"; NodeAddress.Addresses := [sidero; lan] |};
  {| NodeAddress.ID := "routed"; NodeAddress.Addresses := [] |}
].

Definition labels_key : MetaKey.t :=
  {| MetaKey.ID := "0x0c";
     MetaKey.Value := "machineLabels: {label1: value1, label2: override}" |}.

Definition metaKeys : list MetaKey.t := [
  {| MetaKey.ID := "0x0a"; MetaKey.Value := "machineInitialLabels: {zone: a}" |};
  labels_key
].

Definition user_labels : omni_MachineLabels.t :=
  {| omni_MachineLabels.Labels := {[ "label2" := "aaa" ]} |}.

Definition machine : Client :=
  {| Client_Version := Client_Version quiet; Client_Disks := Client_Disks quiet;
     List_HostnameStatus := RpcOk []; List_RouteStatus := RpcOk routes;
     List_NodeAddress := RpcOk addresses; List_LinkStatus := RpcOk links;
     List_Processor := RpcOk processors; List_MemoryModule := RpcOk memory;
     List_PlatformMetadata := RpcOk []; List_MetaKey := RpcOk metaKeys;
     List_ExtensionStatus := RpcOk [] |}.

(** A machine whose labels meta key holds the legacy shape. *)
Definition legacy_machine : Client :=
  {| Client_Version := Client_Version quiet; Client_Disks := Client_Disks quiet;
     List_HostnameStatus := RpcOk []; List_RouteStatus := RpcOk [];
     List_NodeAddress := RpcOk []; List_LinkStatus := RpcOk [];
     List_Processor := RpcOk []; List_MemoryModule := RpcOk [];
     List_PlatformMetadata := RpcOk [];
     List_MetaKey := RpcOk [{| MetaKey.ID := "0x0c";
                               MetaKey.Value := "machineInitialLabels: {zone: a}" |}];
     List_ExtensionStatus := RpcOk [] |}.

(** A machine with a meta key, but not the labels one. *)
Definition no_labels_key : Client :=
  {| Client_Version := Client_Version quiet; Client_Disks := Client_Disks quiet;
     List_HostnameStatus := RpcOk []; List_RouteStatus := RpcOk [];
     List_NodeAddress := RpcOk []; List_LinkStatus := RpcOk [];
     List_Processor := RpcOk []; List_MemoryModule := RpcOk [];
     List_PlatformMetadata := RpcOk [];
     List_MetaKey := RpcOk [{| MetaKey.ID := "0x0a"; MetaKey.Value := "10.5.0.2" |}];
     List_ExtensionStatus := RpcOk [] |}.

(** The machines of [TestMachineSchematic]. *)
Definition with_extensions (exts : list ExtensionStatus.t) : Client :=
  {| Client_Version := Client_Version quiet; Client_Disks := Client_Disks quiet;
     List_HostnameStatus := RpcOk []; List_RouteStatus := RpcOk [];
     List_NodeAddress := RpcOk []; List_LinkStatus := RpcOk [];
     List_Processor := RpcOk []; List_MemoryModule := RpcOk [];
     List_PlatformMetadata := RpcOk []; List_MetaKey := RpcOk [];
     List_ExtensionStatus := RpcOk exts |}.

Definition just_schematic_id : Client :=
  with_extensions [{| ExtensionStatus.ID := "schematic"; ExtensionStatus.Name := "schematic";
                      ExtensionStatus.Version := "1234";
                      ExtensionStatus.Description := SchematicIDExtensionName |}].

Definition unknown_extension : Client :=
  with_extensions [{| ExtensionStatus.ID := "unknown"; ExtensionStatus.Name := "unknown";
                      ExtensionStatus.Version := "1";
                      ExtensionStatus.Description := "unknown" |}].

Definition vanilla : Client := with_extensions [].

Definition disk : MachineStatusSpec_BlockDevice.t :=
  {| MachineStatusSpec_BlockDevice.Size := 500107862016; MachineStatusSpec_BlockDevice.Model := "CT500"; MachineStatusSpec_BlockDevice.LinuxName := "/dev/sda";
     MachineStatusSpec_BlockDevice.Name := "sda"; MachineStatusSpec_BlockDevice.Serial := "S1"; MachineStatusSpec_BlockDevice.Uuid := "";
     MachineStatusSpec_BlockDevice.Wwid := ""; MachineStatusSpec_BlockDevice.Type_ := "SSD"; MachineStatusSpec_BlockDevice.BusPath := "/pci0000:00";
     MachineStatusSpec_BlockDevice.SystemDisk := true |}.

(** A snapshot filled by earlier runs. *)
Definition polled : Info :=
  {| TalosVersion := Some "v1.6.0"; Arch := Some "amd64";
     Hostname := Some "node-1"; Domainname := Some "";
     Addresses := Some ["192.168.1.1/24"]; DefaultGateways := Some ["192.168.1.1"];
     NetworkLinks := None; Processors := None; MemoryModules := None;
     Blockdevices := Some [disk];
     PlatformMetadata := None; Schematic := None;
     ImageLabels := Some {[ "label1" := "value1" ]};
     MaintenanceMode := false;
     MachineLabels := Some user_labels |}.

(** The same snapshot after the user has set [label1]. *)
Definition relabelled : Info :=
  {| TalosVersion := Some "v1.6.0"; Arch := Some "amd64";
     Hostname := Some "node-1"; Domainname := Some "";
     Addresses := Some ["192.168.1.1/24"]; DefaultGateways := Some ["192.168.1.1"];
     NetworkLinks := None; Processors := None; MemoryModules := None;
     Blockdevices := Some [disk];
     PlatformMetadata := None; Schematic := None;
     ImageLabels := Some {[ "label1" := "value1" ]};
     MaintenanceMode := false;
     MachineLabels := Some {| omni_MachineLabels.Labels := {[ "label1" := "gasp" ]} |} |}.

Definition cancelled : error := StatusError codes.Canceled "context canceled".

(** A machine that answers the two unary calls. *)
Definition answering : Client :=
  {| Client_Version :=
       RpcOk {| machineapi.VMessages :=
                  [{| machineapi.GetVersion :=
                        Some {| machineapi.Tag := "v1.6.0"; machineapi.VArch := "amd64" |} |}] |};
     Client_Disks :=
       RpcOk {| storage.DMessages :=
                  [{| storage.GetDisks :=
                        [{| storage.GetSize := 500107862016; storage.GetModel := "CT500";
                            storage.GetDeviceName := "/dev/sda"; storage.GetName := "sda";
                            storage.GetSerial := "S1"; storage.GetUuid := "";
                            storage.GetWwid := ""; storage.GetType := storage.SSD;
                            storage.GetBusPath := "/pci0000:00";
                            storage.GetSystemDisk := true |}] |}] |};
     List_HostnameStatus :=
       RpcOk [{| HostnameStatus.ID := "hostname"; HostnameStatus.Hostname := "node-1";
                 HostnameStatus.Domainname := "" |}];
     List_RouteStatus := RpcOk [];
     List_NodeAddress := RpcOk []; List_LinkStatus := RpcOk [];
     List_Processor := RpcOk []; List_MemoryModule := RpcOk [];
     List_PlatformMetadata := RpcOk []; List_MetaKey := RpcOk [];
     List_ExtensionStatus := RpcOk [] |}.

End Runs.

(** ** More machines for the examples *)

Module Extra.
Import Example.

(** Meta keys among which a labels key holds a blob that does not decode,
    listed before one that does. *)
Definition broken_keys : list MetaKey.t :=
  [{| MetaKey.ID := "0x0a"; MetaKey.Value := "10.5.0.2" |};
   {| MetaKey.ID := "0x0c"; MetaKey.Value := "{" |};
   Runs.labels_key].

Definition broken_labels : Client :=
  {| Client_Version := Client_Version quiet; Client_Disks := Client_Disks quiet;
     List_HostnameStatus := RpcOk []; List_RouteStatus := RpcOk [];
     List_NodeAddress := RpcOk []; List_LinkStatus := RpcOk [];
     List_Processor := RpcOk []; List_MemoryModule := RpcOk [];
     List_PlatformMetadata := RpcOk [];
     List_MetaKey := RpcOk broken_keys;
     List_ExtensionStatus := RpcOk [] |}.

(** A machine with a physical link of unknown speed and a node-address
    resource holding a SideroLink address only. *)
Definition unknown_speed : Client :=
  {| Client_Version := Client_Version quiet; Client_Disks := Client_Disks quiet;
     List_HostnameStatus := RpcOk []; List_RouteStatus := RpcOk [];
     List_NodeAddress :=
       RpcOk [{| NodeAddress.ID := "current-no-k8s";
                 NodeAddress.Addresses := [Runs.sidero] |}];
     List_LinkStatus :=
       RpcOk [{| LinkStatus.ID := "eth1"; LinkStatus.HardwareAddr := [2; 0; 23; 1; 2; 4]%N;
                 LinkStatus.SpeedMegabits := -1; LinkStatus.LinkState := false;
                 LinkStatus.Vendor := "Intel"; LinkStatus.Product := "I210";
                 LinkStatus.Type_ := 1; LinkStatus.Kind := "" |}];
     List_Processor := RpcOk []; List_MemoryModule := RpcOk [];
     List_PlatformMetadata := RpcOk []; List_MetaKey := RpcOk [];
     List_ExtensionStatus := RpcOk [] |}.

(** A response of the Version call with one message. *)
Definition late_response : machineapi.VersionResponse :=
  {| machineapi.VMessages :=
       [{| machineapi.GetVersion :=
             Some {| machineapi.Tag := "v1.7.0"; machineapi.VArch := "arm64" |} |}] |}.

(** A request map with two meta values, ranged over in either order, and
    the keys that may be set. *)
Definition requested : list (N * string) := [(10%N, "10.5.0.2"); (268%N, "rack-7")].
Definition requested' : list (N * string) := [(268%N, "rack-7"); (10%N, "10.5.0.2")].
Definition user_keys (key : Z) : bool := (10 <=? key)%Z.

Definition sorted_meta : list MetaValue.t :=
  [{| MetaValue.Key := 12; MetaValue.Value := "rack-7" |};
   {| MetaValue.Key := 10; MetaValue.Value := "10.5.0.2" |}].

End Extra.

(** ** Tactics *)

Ltac by_fields := intros; try match goal with i : Info |- _ => destruct i end; reflexivity.

Ltac solve_apart :=
  split; intros; repeat split; intros;
  match goal with i : Info |- _ => destruct i end; reflexivity.

Ltac split_registered H :=
  unfold registered in H;
  repeat (apply elem_of_cons in H as [H|H]; [injection H as -> ->|]);
  [..|by apply elem_of_nil in H].

Create HintDb pollers.

(** * Properties *)

(** ** Slices *)

Lemma extend_append {A} (s : slice A) (x : A) (l : list A) :
  extend (append s x) l = extend s (x :: l).
Proof.
  unfold append. destruct l as [|y l]; simpl.
  - reflexivity.
  - by rewrite <- app_assoc.
Qed.

Lemma elems_extend_nil {A} (l : list A) : elems (extend None l) = l.
Proof. by destruct l. Qed.

Lemma elems_extend_empty {A} (l : list A) : elems (extend make_empty l) = l.
Proof. by destruct l. Qed.

(** ** The scan *)

Section Scan.
Context {T : Type} (callback : T → Info → Info * option error).

Lemma scan_app (l1 l2 : list T) (info : Info) :
  scan callback (l1 ++ l2) info =
    match scan callback l1 info with
    | (info', None) => scan callback l2 info'
    | failed => failed
    end.
Proof.
  revert info. induction l1 as [|r l1 IH]; intros info; simpl.
  - reflexivity.
  - destruct (callback r info) as [info' [err|]]; [reflexivity | apply IH].
Qed.

(** What every call of the callback keeps, the scan keeps. *)
Lemma scan_preserves (P : Info → Prop) (items : list T) (info : Info) :
  (∀ r i, P i → P (callback r i).1) →
  P info → P (scan callback items info).1.
Proof.
  intros Hcb. revert info. induction items as [|r items IH]; intros info HP; simpl.
  - exact HP.
  - specialize (Hcb r info HP).
    destruct (callback r info) as [info' [err|]]; simpl in *; [exact Hcb | by apply IH].
Qed.

(** Resources the callback passes over can be left out of the scan. *)
Lemma scan_filter (P : Info → Prop) (sel : T → bool) (items : list T) (info : Info) :
  (∀ r i, P i → P (callback r i).1) →
  (∀ r i, P i → sel r = false → callback r i = (i, None)) →
  P info →
  scan callback items info = scan callback (List.filter sel items) info.
Proof.
  intros Hkeep Hskip. revert info.
  induction items as [|r items IH]; intros info HP; simpl; [reflexivity|].
  destruct (sel r) eqn:Hsel; simpl.
  - specialize (Hkeep r info HP).
    destruct (callback r info) as [info' [err|]]; simpl in *; [reflexivity | by apply IH].
  - rewrite (Hskip r info HP Hsel). by apply IH.
Qed.

End Scan.

(** A callback that appends [f r] to a slice of the snapshot for the
    resources it keeps, and passes over the others. *)
Section Accumulate.
Context {T A : Type}.
Context (get : Info → slice A) (set : slice A → Info → Info).
Hypothesis get_set : ∀ v i, get (set v i) = v.
Hypothesis set_set : ∀ v w i, set v (set w i) = set v i.
Hypothesis set_get : ∀ i, set (get i) i = i.
Context (keep : T → bool) (f : T → A) (callback : T → Info → Info * option error).
Hypothesis callback_appends :
  ∀ r i, callback r i = (if keep r then set (append (get i) (f r)) i else i, None).

Lemma scan_accumulate (items : list T) (info : Info) :
  scan callback items info =
    (set (extend (get info) (f <$> List.filter keep items)) info, None).
Proof using get_set set_set set_get callback_appends.
  revert info. induction items as [|r items IH]; intros info; simpl.
  - by rewrite set_get.
  - rewrite callback_appends. destruct (keep r); simpl.
    + rewrite IH, get_set, set_set. by rewrite extend_append.
    + apply IH.
Qed.

End Accumulate.

(** ** Routes, links, processors and memory modules *)

Section PollerFacts.
Context `{M : Machinery}.

Lemma pollRoutes_scan (items : list RouteStatus.t) (info : Info) :
  scan pollRoutes_callback items info =
    (set_DefaultGateways
       (extend (DefaultGateways info)
          ((λ r, Addr_String (RouteStatus.Gateway r)) <$> List.filter filterRoutes items))
       info, None).
Proof.
  apply (scan_accumulate DefaultGateways set_DefaultGateways); try done.
  - by intros [].
  - intros r i. unfold pollRoutes_callback, filterRoutes. by case_match.
Qed.

Lemma pollNetworkLinks_scan (items : list LinkStatus.t) (info : Info) :
  scan pollNetworkLinks_callback items info =
    (set_NetworkLinks
       (extend (NetworkLinks info) (networkLinkStatus <$> List.filter filterNetworkLinks items))
       info, None).
Proof.
  apply (scan_accumulate NetworkLinks set_NetworkLinks); try done.
  - by intros [].
  - intros r i. unfold pollNetworkLinks_callback, filterNetworkLinks. by destruct (Physical r).
Qed.

Lemma pollProcessors_scan (items : list Processor.t) (info : Info) :
  scan pollProcessors_callback items info =
    (set_Processors
       (extend (Processors info) (hwProcessor <$> List.filter reported_processor items))
       info, None).
Proof.
  apply (scan_accumulate Processors set_Processors); try done.
  - by intros [].
  - intros r i. unfold pollProcessors_callback, reported_processor. by case_match.
Qed.

Lemma pollMemory_scan (items : list MemoryModule.t) (info : Info) :
  scan pollMemory_callback items info =
    (set_MemoryModules
       (extend (MemoryModules info) (hwMemoryModule <$> List.filter reported_memory items))
       info, None).
Proof.
  apply (scan_accumulate MemoryModules set_MemoryModules); try done.
  - by intros [].
  - intros r i. unfold pollMemory_callback, reported_memory. by case_match.
Qed.

End PollerFacts.

(** ** Examples of runs *)

Example pollVersion_run :
  pollVersion Runs.answering Example.fresh
  = (set_Arch (Some "amd64") (set_TalosVersion (Some "v1.6.0") Example.fresh), None).
Proof. reflexivity. Qed.

Example pollDisks_run :
  pollDisks Runs.answering Example.fresh
  = (set_Blockdevices (Some [Runs.disk]) Example.fresh, None).
Proof. reflexivity. Qed.

Example pollHostname_run :
  pollHostname Runs.answering Example.fresh
  = (set_Domainname (Some "") (set_Hostname (Some "node-1") Example.fresh), None).
Proof. reflexivity. Qed.

Example pollRoutes_run :
  elems (DefaultGateways (@pollRoutes Example.node Runs.machine Example.fresh).1)
  = ["192.168.1.1"].
Proof. reflexivity. Qed.

Example pollNetworkLinks_run :
  MachineStatusSpec_NetworkLinkStatus.LinuxName
    <$> elems (NetworkLinks (@pollNetworkLinks Example.node Runs.machine Example.fresh).1)
  = ["eth0"].
Proof. reflexivity. Qed.

Section Snapshots.
Context `{M : Machinery}.

Lemma filterRoutes_spec (r : RouteStatus.t) :
  filterRoutes r = true ↔
    RouteStatus.Destination r = netip.Prefix_zero
    ∧ netip.IsValid (RouteStatus.Gateway r) = true
    ∧ RouteStatus.Scope r = nethelpers.ScopeGlobal.
Proof.
  unfold filterRoutes, value_IsZero.
  rewrite !andb_true_iff, !bool_decide_eq_true. tauto.
Qed.

(** A resource poller whose callback cannot fail succeeds as soon as the
    resources are listed. *)
Lemma pollRoutes_listed (c : Client) (info : Info) (items : list RouteStatus.t) :
  List_RouteStatus c = RpcOk items →
  pollRoutes c info =
    (set_DefaultGateways
       (extend None ((λ r, Addr_String (RouteStatus.Gateway r)) <$> List.filter filterRoutes items))
       info, None).
Proof.
  intros Hl. unfold pollRoutes, forEachResource. rewrite Hl, pollRoutes_scan.
  by destruct info.
Qed.

Lemma pollNetworkLinks_listed (c : Client) (info : Info) (items : list LinkStatus.t) :
  List_LinkStatus c = RpcOk items →
  pollNetworkLinks c info =
    (set_NetworkLinks
       (extend None (networkLinkStatus <$> List.filter filterNetworkLinks items)) info, None).
Proof.
  intros Hl. unfold pollNetworkLinks, forEachResource. rewrite Hl, pollNetworkLinks_scan.
  by destruct info.
Qed.

Lemma pollProcessors_listed (c : Client) (info : Info) (items : list Processor.t) :
  List_Processor c = RpcOk items →
  pollProcessors c info =
    (set_Processors
       (extend None (hwProcessor <$> List.filter reported_processor items)) info, None).
Proof.
  intros Hl. unfold pollProcessors, forEachResource. rewrite Hl, pollProcessors_scan.
  by destruct info.
Qed.

Lemma pollMemory_listed (c : Client) (info : Info) (items : list MemoryModule.t) :
  List_MemoryModule c = RpcOk items →
  pollMemory c info =
    (set_MemoryModules
       (extend None (hwMemoryModule <$> List.filter reported_memory items)) info, None).
Proof.
  intros Hl. unfold pollMemory, forEachResource. rewrite Hl, pollMemory_scan.
  by destruct info.
Qed.

(** A run that returns no error has listed the resources. *)
Lemma forEachResource_ok {T} (listed : rpc_result (list T)) callback (info info' : Info) :
  forEachResource listed callback info = (info', None) →
  ∃ items, listed = RpcOk items.
Proof. destruct listed as [items|err]; simpl; [eauto | discriminate]. Qed.

(** C6. After a run of [pollRoutes] that returns no error, the elements of
    [Info.DefaultGateways] are exactly the gateways, rendered as strings,
    of the scanned routes that pass the filter, in scan order, and no
    other field has changed; a route passes the filter exactly when its
    destination is the zero prefix, its gateway is valid and its scope is
    global. *)
Theorem pollRoutes_default_gateways (c : Client) (info info' : Info) :
  pollRoutes c info = (info', None) →
  ∃ items,
    List_RouteStatus c = RpcOk items
    ∧ elems (DefaultGateways info')
      = (λ r, Addr_String (RouteStatus.Gateway r)) <$> List.filter filterRoutes items
    ∧ info' = set_DefaultGateways (DefaultGateways info') info
    ∧ ∀ r, filterRoutes r = true ↔
        RouteStatus.Destination r = netip.Prefix_zero
        ∧ netip.IsValid (RouteStatus.Gateway r) = true
        ∧ RouteStatus.Scope r = nethelpers.ScopeGlobal.
Proof.
  intros Hrun.
  destruct (forEachResource_ok _ _ _ _ Hrun) as [items Hl].
  exists items. rewrite (pollRoutes_listed _ _ _ Hl) in Hrun.
  injection Hrun as <-. split; [exact Hl|]. split; [|split].
  - simpl. apply elems_extend_nil.
  - reflexivity.
  - apply filterRoutes_spec.
Qed.

(** C9. After a run of [pollNetworkLinks] that returns no error, the
    elements of [Info.NetworkLinks] are exactly the records of the scanned
    links that are physical, in scan order; the record of a link holds its
    id as Linux name, its hardware address as a string, its speed
    converted to [uint32], its link state, and vendor and product joined
    by a space. *)
Theorem pollNetworkLinks_physical (c : Client) (info info' : Info) :
  pollNetworkLinks c info = (info', None) →
  ∃ items,
    List_LinkStatus c = RpcOk items
    ∧ elems (NetworkLinks info')
      = networkLinkStatus <$> List.filter (λ r, Physical r) items
    ∧ info' = set_NetworkLinks (NetworkLinks info') info
    ∧ ∀ r,
        MachineStatusSpec_NetworkLinkStatus.LinuxName (networkLinkStatus r) = LinkStatus.ID r
        ∧ MachineStatusSpec_NetworkLinkStatus.HardwareAddress (networkLinkStatus r)
          = HardwareAddr_String (LinkStatus.HardwareAddr r)
        ∧ MachineStatusSpec_NetworkLinkStatus.SpeedMbps (networkLinkStatus r)
          = (LinkStatus.SpeedMegabits r mod 2 ^ 32)%Z
        ∧ MachineStatusSpec_NetworkLinkStatus.LinkUp (networkLinkStatus r) = LinkStatus.LinkState r
        ∧ MachineStatusSpec_NetworkLinkStatus.Description (networkLinkStatus r)
          = LinkStatus.Vendor r +:+ " " +:+ LinkStatus.Product r.
Proof.
  intros Hrun.
  destruct (forEachResource_ok _ _ _ _ Hrun) as [items Hl].
  exists items. rewrite (pollNetworkLinks_listed _ _ _ Hl) in Hrun.
  injection Hrun as <-. split; [exact Hl|]. split; [|split].
  - simpl. apply elems_extend_nil.
  - reflexivity.
  - intros r. repeat split.
Qed.

(** C8. After a run of [pollProcessors] that returns no error, the
    elements of [Info.Processors] are the records of the scanned
    processors whose core count and maximum speed are both non-zero, so
    every element has a non-zero [CoreCount] and [Frequency]; after a run
    of [pollMemory] that returns no error, the elements of
    [Info.MemoryModules] are the records of the scanned modules of
    non-zero size, so every element has a non-zero [SizeMb]. *)
Theorem hardware_snapshot_nonzero (c : Client) (info info' : Info) :
  (pollProcessors c info = (info', None) →
     (∃ items, List_Processor c = RpcOk items
        ∧ elems (Processors info')
          = hwProcessor <$> List.filter reported_processor items)
     ∧ ∀ p, p ∈ elems (Processors info') →
         MachineStatusSpec_Processor.CoreCount p ≠ 0%N ∧ MachineStatusSpec_Processor.Frequency p ≠ 0%N)
  ∧ (pollMemory c info = (info', None) →
     (∃ items, List_MemoryModule c = RpcOk items
        ∧ elems (MemoryModules info')
          = hwMemoryModule <$> List.filter reported_memory items)
     ∧ ∀ m, m ∈ elems (MemoryModules info') → MachineStatusSpec_MemoryModule.SizeMb m ≠ 0%N).
Proof.
  split; intros Hrun.
  - destruct (forEachResource_ok _ _ _ _ Hrun) as [items Hl].
    rewrite (pollProcessors_listed _ _ _ Hl) in Hrun. injection Hrun as <-.
    simpl. rewrite elems_extend_nil. split; [eauto|].
    intros p Hp. apply list_elem_of_fmap in Hp as (r & -> & Hr).
    apply list_elem_of_In, filter_In in Hr as [_ Hr].
    unfold reported_processor in Hr.
    apply negb_true_iff, orb_false_iff in Hr as [H1 H2].
    apply bool_decide_eq_false in H1, H2. done.
  - destruct (forEachResource_ok _ _ _ _ Hrun) as [items Hl].
    rewrite (pollMemory_listed _ _ _ Hl) in Hrun. injection Hrun as <-.
    simpl. rewrite elems_extend_nil. split; [eauto|].
    intros m Hm. apply list_elem_of_fmap in Hm as (r & -> & Hr).
    apply list_elem_of_In, filter_In in Hr as [_ Hr].
    unfold reported_memory in Hr.
    apply negb_true_iff, bool_decide_eq_false in Hr. done.
Qed.

End Snapshots.

Lemma pollRoutes_default_gateways_witness :
  let info' := set_DefaultGateways (Some ["192.168.1.1"]) Example.fresh in
  @pollRoutes Example.node Runs.machine Example.fresh = (info', None)
  ∧ ∃ items,
      List_RouteStatus Runs.machine = RpcOk items
      ∧ elems (DefaultGateways info')
        = (λ r, @Addr_String Example.node (RouteStatus.Gateway r)) <$> List.filter filterRoutes items
      ∧ info' = set_DefaultGateways (DefaultGateways info') Example.fresh
      ∧ ∀ r, filterRoutes r = true ↔
          RouteStatus.Destination r = netip.Prefix_zero
          ∧ netip.IsValid (RouteStatus.Gateway r) = true
          ∧ RouteStatus.Scope r = nethelpers.ScopeGlobal.
Proof.
  intros info'. split; [reflexivity|].
  apply (@pollRoutes_default_gateways Example.node Runs.machine Example.fresh info').
  reflexivity.
Defined.

Lemma pollNetworkLinks_physical_witness :
  let eth0 :=
    {| MachineStatusSpec_NetworkLinkStatus.LinuxName := "eth0"; MachineStatusSpec_NetworkLinkStatus.HardwareAddress := "02:00:17:01:02:03";
       MachineStatusSpec_NetworkLinkStatus.SpeedMbps := 1000; MachineStatusSpec_NetworkLinkStatus.LinkUp := true;
       MachineStatusSpec_NetworkLinkStatus.Description := "Intel I210" |} in
  let info' := set_NetworkLinks (Some [eth0]) Example.fresh in
  @pollNetworkLinks Example.node Runs.machine Example.fresh = (info', None)
  ∧ ∃ items,
      List_LinkStatus Runs.machine = RpcOk items
      ∧ elems (NetworkLinks info')
        = @networkLinkStatus Example.node <$> List.filter (λ r, @Physical Example.node r) items.
Proof.
  intros eth0 info'. split; [reflexivity|].
  destruct (@pollNetworkLinks_physical Example.node Runs.machine Example.fresh info' eq_refl)
    as (items & Hl & He & _).
  exists items. split; assumption.
Defined.

Lemma hardware_snapshot_nonzero_witness :
  let cpu :=
    {| MachineStatusSpec_Processor.CoreCount := 8; MachineStatusSpec_Processor.ThreadCount := 16; MachineStatusSpec_Processor.Frequency := 3600;
       MachineStatusSpec_Processor.Manufacturer := "AMD"; MachineStatusSpec_Processor.Description := "AMD Ryzen" |} in
  let dimm := {| MachineStatusSpec_MemoryModule.SizeMb := 16384; MachineStatusSpec_MemoryModule.Description := "Kingston" |} in
  (pollProcessors Runs.machine Example.fresh
     = (set_Processors (Some [cpu]) Example.fresh, None)
   ∧ ∀ p, p ∈ [cpu] → MachineStatusSpec_Processor.CoreCount p ≠ 0%N ∧ MachineStatusSpec_Processor.Frequency p ≠ 0%N)
  ∧ (pollMemory Runs.machine Example.fresh
       = (set_MemoryModules (Some [dimm]) Example.fresh, None)
     ∧ ∀ m, m ∈ [dimm] → MachineStatusSpec_MemoryModule.SizeMb m ≠ 0%N).
Proof.
  intros cpu dimm. split; (split; [reflexivity|]).
  - exact (proj2 (proj1 (hardware_snapshot_nonzero Runs.machine Example.fresh
                           (set_Processors (Some [cpu]) Example.fresh)) eq_refl)).
  - exact (proj2 (proj2 (hardware_snapshot_nonzero Runs.machine Example.fresh
                           (set_MemoryModules (Some [dimm]) Example.fresh)) eq_refl)).
Defined.

(** ** Node addresses *)

Section Overwrite.
Context {T : Type} (callback : T → Info → Info * option error).

(** A scan that ends without error has run the callback on its last
    resource without error. *)
Lemma scan_snoc (l : list T) (r : T) (info info' : Info) :
  scan callback (l ++ [r]) info = (info', None) →
  ∃ i1, scan callback l info = (i1, None) ∧ callback r i1 = (info', None).
Proof.
  rewrite scan_app. destruct (scan callback l info) as [i1 [err|]]; [discriminate|].
  simpl. destruct (callback r i1) as [i2 [err|]] eqn:Hcb; [discriminate|].
  intros [= <-]. eauto.
Qed.

Lemma scan_total (items : list T) (info : Info) :
  (∀ r i, (callback r i).2 = None) → (scan callback items info).2 = None.
Proof.
  intros Hcb. revert info. induction items as [|r items IH]; intros info; simpl; [done|].
  specialize (Hcb r info). destruct (callback r info) as [i [err|]]; simpl in *; [done | apply IH].
Qed.

End Overwrite.

Section AddressFacts.
Context `{M : Machinery}.


Lemma collectAddresses_spec (addrs : list netip.Prefix) (info : Info) :
  collectAddresses addrs info =
    set_Addresses
      (extend (Addresses info) (Prefix_String <$> List.filter outside_SideroLink addrs)) info.
Proof.
  unfold collectAddresses. revert info.
  induction addrs as [|a addrs IH]; intros info; simpl.
  - by destruct info.
  - unfold outside_SideroLink at 1.
    destruct (IsULA (netip.PrefixAddr a) ULASideroLink); simpl.
    + apply IH.
    + rewrite IH. simpl. rewrite extend_append. by destruct info.
Qed.

Lemma pollAddresses_callback_selected (r : NodeAddress.t) (info : Info) :
  filterAddresses (MaintenanceMode info) r = true →
  pollAddresses_callback r info =
    (set_Addresses
       (Some (Prefix_String <$> List.filter outside_SideroLink (NodeAddress.Addresses r))) info,
     None).
Proof.
  intros Hsel. unfold pollAddresses_callback, filterAddresses in *.
  destruct (MaintenanceMode info) eqn:Hmode;
    apply bool_decide_eq_true in Hsel;
    rewrite bool_decide_eq_false_2 by (intros Hne; by apply Hne);
    rewrite collectAddresses_spec; simpl;
    by destruct (Prefix_String <$> _).
Qed.

Lemma pollAddresses_callback_other (r : NodeAddress.t) (info : Info) :
  filterAddresses (MaintenanceMode info) r = false →
  pollAddresses_callback r info = (info, None).
Proof.
  intros Hsel. unfold pollAddresses_callback, filterAddresses in *.
  destruct (MaintenanceMode info) eqn:Hmode;
    apply bool_decide_eq_false in Hsel;
    by rewrite bool_decide_eq_true_2.
Qed.

(** Every call of the callback changes at most [Info.Addresses]. *)
Lemma pollAddresses_callback_frame (r : NodeAddress.t) (info : Info) :
  ∃ v, pollAddresses_callback r info = (set_Addresses v info, None).
Proof.
  destruct (filterAddresses (MaintenanceMode info) r) eqn:Hsel.
  - eexists. by apply pollAddresses_callback_selected.
  - exists (Addresses info). rewrite pollAddresses_callback_other by done. by destruct info.
Qed.

Lemma pollAddresses_scan_frame (items : list NodeAddress.t) (info : Info) :
  ∃ v, scan pollAddresses_callback items info = (set_Addresses v info, None).
Proof.
  pose proof (scan_preserves pollAddresses_callback
                (λ i, ∃ v, i = set_Addresses v info) items info) as Hinv.
  destruct Hinv as [v Hv].
  - intros r i [v ->]. destruct (pollAddresses_callback_frame r (set_Addresses v info)) as [w ->].
    by exists w.
  - exists (Addresses info). by destruct info.
  - exists v. pose proof (scan_total pollAddresses_callback items info) as Hok.
    destruct (scan pollAddresses_callback items info) as [i e]. simpl in *.
    rewrite Hv, Hok; [done|].
    intros r i'. by destruct (pollAddresses_callback_frame r i') as [w ->].
Qed.


End AddressFacts.

Example pollAddresses_run :
  Addresses (@pollAddresses Example.node Runs.machine Example.fresh).1 = Some ["192.168.1.1/24"].
Proof. reflexivity. Qed.


(** ** Image labels *)

Lemma maskLabels_lookup (keys : list string) (labels : gmap string string) (k : string) :
  maskLabels keys labels !! k = if decide (k ∈ keys) then None else labels !! k.
Proof.
  unfold maskLabels. revert labels.
  induction keys as [|a keys IH]; intros labels.
  - done.
  - cbn [foldl]. rewrite IH. destruct (decide (k = a)) as [->|Hne].
    + rewrite lookup_delete_eq.
      rewrite (decide_True (P := a ∈ a :: keys)) by apply list_elem_of_here.
      by case_decide.
    + rewrite lookup_delete_ne by done.
      destruct (decide (k ∈ keys)) as [Hin|Hin], (decide (k ∈ a :: keys)) as [Hin'|Hin'];
        try done.
      * destruct Hin'. by apply list_elem_of_further.
      * apply elem_of_cons in Hin' as [?|?]; done.
Qed.

Lemma Keys_elem (ml : omni_MachineLabels.t) (k : string) :
  k ∈ omni_MachineLabels.Keys ml ↔ is_Some (omni_MachineLabels.Labels ml !! k).
Proof.
  unfold omni_MachineLabels.Keys. rewrite list_elem_of_fmap. split.
  - intros ([k' v] & -> & Hin). apply elem_of_map_to_list in Hin. eauto.
  - intros [v Hv]. exists (k, v). split; [done|]. by apply elem_of_map_to_list.
Qed.

(** A key of the machine labels is not among the filtered labels; every
    other key is kept with its value. *)
Lemma filterMachineLabels_lookup (ml : omni_MachineLabels.t)
    (labels : option (gmap string string)) (k : string) :
  labels_lookup (filterMachineLabels (Some ml) labels) k =
    if decide (is_Some (omni_MachineLabels.Labels ml !! k)) then None else labels_lookup labels k.
Proof.
  destruct labels as [l|]; simpl.
  - rewrite maskLabels_lookup.
    repeat case_decide; try done; exfalso; rewrite Keys_elem in *; tauto.
  - by case_decide.
Qed.

Section MetaFacts.
Context `{M : Machinery}.

Lemma pollMeta_callback_other (metaKey : MetaKey.t) (info : Info) :
  labels_meta_key metaKey = false → pollMeta_callback metaKey info = (info, None).
Proof.
  intros Hsel. apply bool_decide_eq_false in Hsel.
  unfold pollMeta_callback. by rewrite bool_decide_eq_true_2.
Qed.

Lemma pollMeta_callback_labels (metaKey : MetaKey.t) (info : Info) :
  labels_meta_key metaKey = true →
  pollMeta_callback metaKey info =
    match ParseLabels (MetaKey.Value metaKey) with
    | inr err => (info, Some err)
    | inl imageLabels =>
        (set_ImageLabels
           (filterMachineLabels (MachineLabels info) (decodedLabels imageLabels)) info, None)
    end.
Proof.
  intros Hsel. apply bool_decide_eq_true in Hsel.
  unfold pollMeta_callback. rewrite bool_decide_eq_false_2 by (intros Hne; by apply Hne).
  reflexivity.
Qed.

(** Every call of the callback changes at most [Info.ImageLabels]. *)
Lemma pollMeta_callback_frame (metaKey : MetaKey.t) (info : Info) :
  ∃ v, (pollMeta_callback metaKey info).1 = set_ImageLabels v info.
Proof.
  destruct (labels_meta_key metaKey) eqn:Hsel.
  - rewrite pollMeta_callback_labels by done.
    destruct (ParseLabels _); simpl; eauto. exists (ImageLabels info). by destruct info.
  - rewrite pollMeta_callback_other by done. exists (ImageLabels info). by destruct info.
Qed.

Lemma pollMeta_filter (items : list MetaKey.t) (info : Info) :
  scan pollMeta_callback items info
  = scan pollMeta_callback (List.filter labels_meta_key items) info.
Proof.
  apply (scan_filter _ (λ _, True)); try done.
  intros r i _. apply pollMeta_callback_other.
Qed.

(** C7. [pollMeta] passes over every meta key whose id is not the id of
    the labels meta tag, leaving the snapshot as it is, so that a run
    reads only the keys with that id.  The value of such a key is
    decoded as an image-labels blob; a decoding error is returned, and
    otherwise [Info.ImageLabels] receives the decoded labels, filtered by
    the machine labels, where the decoded labels are the legacy ones when
    the [Labels] map is [nil]. *)
Theorem pollMeta_consumes_labels_key (c : Client) (info : Info) (items : list MetaKey.t) :
  List_MetaKey c = RpcOk items →
  (∀ metaKey i, MetaKey.ID metaKey ≠ MetaKeyTagToID LabelsMeta →
     pollMeta_callback metaKey i = (i, None))
  ∧ pollMeta c info =
      scan pollMeta_callback
        (List.filter (λ metaKey, bool_decide (MetaKey.ID metaKey = MetaKeyTagToID LabelsMeta))
           items) info
  ∧ ∀ metaKey i, MetaKey.ID metaKey = MetaKeyTagToID LabelsMeta →
      match ParseLabels (MetaKey.Value metaKey) with
      | inr err => pollMeta_callback metaKey i = (i, Some err)
      | inl imageLabels =>
          let labels :=
            match meta_ImageLabels.Labels imageLabels with
            | None => meta_ImageLabels.LegacyLabels imageLabels
            | Some l => Some l
            end in
          pollMeta_callback metaKey i
          = (set_ImageLabels (filterMachineLabels (MachineLabels i) labels) i, None)
          ∧ (MachineLabels i = None →
             ImageLabels (pollMeta_callback metaKey i).1 = labels)
      end.
Proof.
  intros Hl. split; [|split].
  - intros metaKey i Hne. apply pollMeta_callback_other.
    unfold labels_meta_key. by apply bool_decide_eq_false.
  - unfold pollMeta, forEachResource. rewrite Hl. apply pollMeta_filter.
  - intros metaKey i Hid.
    rewrite pollMeta_callback_labels
      by (unfold labels_meta_key; by apply bool_decide_eq_true).
    destruct (ParseLabels (MetaKey.Value metaKey)) as [il|err]; [|done].
    simpl. split; [done|]. intros ->. unfold decodedLabels, filterMachineLabels.
    by destruct (meta_ImageLabels.Labels il), (meta_ImageLabels.LegacyLabels il).
Qed.

(** C3, as amended.  After a run of [pollMeta] that returns no error and
    that scanned a meta key with the id of the labels meta tag, with a
    non-nil [Info.MachineLabels]: the value of the last such key decodes,
    no key of the machine labels is in the resulting [Info.ImageLabels],
    and every other key is there exactly as in the decoded labels. *)
Theorem pollMeta_masks_image_labels (c : Client) (info info' : Info)
    (ml : omni_MachineLabels.t) (items : list MetaKey.t) (metaKey : MetaKey.t) :
  MachineLabels info = Some ml →
  List_MetaKey c = RpcOk items →
  last (List.filter (λ mk, bool_decide (MetaKey.ID mk = MetaKeyTagToID LabelsMeta)) items)
    = Some metaKey →
  pollMeta c info = (info', None) →
  ∃ imageLabels,
    ParseLabels (MetaKey.Value metaKey) = inl imageLabels
    ∧ ∀ k,
        labels_lookup (ImageLabels info') k =
          if decide (is_Some (omni_MachineLabels.Labels ml !! k)) then None
          else labels_lookup (decodedLabels imageLabels) k.
Proof.
  intros Hml Hl Hlast Hrun.
  unfold pollMeta, forEachResource in Hrun. rewrite Hl, pollMeta_filter in Hrun.
  apply last_Some in Hlast as [l Hlast].
  change (List.filter labels_meta_key items = l ++ [metaKey]) in Hlast.
  assert (Hsel : labels_meta_key metaKey = true).
  { assert (Hin : In metaKey (List.filter labels_meta_key items))
      by (rewrite Hlast; apply in_app_iff; simpl; auto).
    by apply filter_In in Hin as [_ ?]. }
  rewrite Hlast in Hrun.
  apply scan_snoc in Hrun as (i1 & Hscan & Hcb).
  assert (Hml1 : MachineLabels i1 = Some ml).
  { pose proof (scan_preserves pollMeta_callback (λ i, MachineLabels i = Some ml) l info) as Hp.
    rewrite Hscan in Hp. apply Hp; [|done].
    intros r i Hi. destruct (pollMeta_callback_frame r i) as [v ->]. done. }
  rewrite pollMeta_callback_labels in Hcb by done.
  destruct (ParseLabels (MetaKey.Value metaKey)) as [il|err]; [|discriminate].
  exists il. split; [done|]. injection Hcb as <-. intros k. simpl.
  rewrite Hml1. apply filterMachineLabels_lookup.
Qed.

End MetaFacts.

Example labels_meta_key_id : @MetaKeyTagToID Example.node (@LabelsMeta Example.node) = "0x0c".
Proof. reflexivity. Qed.

Example pollMeta_run :
  ImageLabels (@pollMeta Example.node Runs.machine Runs.polled).1 = Some {[ "label1" := "value1" ]}.
Proof. vm_compute. reflexivity. Qed.

Lemma pollMeta_consumes_labels_key_witness :
  List_MetaKey Runs.legacy_machine
  = RpcOk [{| MetaKey.ID := "0x0c"; MetaKey.Value := "machineInitialLabels: {zone: a}" |}]
  ∧ @pollMeta Example.node Runs.legacy_machine Example.fresh
    = (set_ImageLabels (Some {[ "zone" := "a" ]}) Example.fresh, None)
  ∧ @pollMeta_callback Example.node
      {| MetaKey.ID := "0x0a"; MetaKey.Value := "machineInitialLabels: {zone: a}" |}
      Example.fresh
    = (Example.fresh, None).
Proof.
  split; [reflexivity|].
  destruct (@pollMeta_consumes_labels_key Example.node Runs.legacy_machine Example.fresh
              _ eq_refl) as (Hother & Hrun & _).
  split.
  - rewrite Hrun. vm_compute. reflexivity.
  - apply Hother. discriminate.
Defined.

Lemma pollMeta_masks_image_labels_witness :
  ∃ imageLabels,
    @ParseLabels Example.node (MetaKey.Value Runs.labels_key) = inl imageLabels
    ∧ ∀ k,
        labels_lookup (ImageLabels (@pollMeta Example.node Runs.machine Runs.polled).1) k =
          if decide (is_Some (omni_MachineLabels.Labels Runs.user_labels !! k)) then None
          else labels_lookup (decodedLabels imageLabels) k.
Proof.
  apply (@pollMeta_masks_image_labels Example.node Runs.machine Runs.polled
           (@pollMeta Example.node Runs.machine Runs.polled).1
           Runs.user_labels Runs.metaKeys Runs.labels_key).
  - reflexivity.
  - reflexivity.
  - vm_compute. reflexivity.
  - vm_compute. reflexivity.
Defined.

(** C3, as stated, fails: a run that scans a meta key other than the
    labels one, and nothing else, returns no error and leaves
    [Info.ImageLabels] as it was, with a key that is also a key of the
    machine labels. *)
Lemma pollMeta_without_labels_key_keeps_labels :
  ¬ (∀ (c : Client) (info info' : Info) (ml : omni_MachineLabels.t) (k : string),
       MachineLabels info = Some ml →
       @pollMeta Example.node c info = (info', None) →
       is_Some (omni_MachineLabels.Labels ml !! k) →
       labels_lookup (ImageLabels info') k = None).
Proof.
  intros Hclaim.
  specialize (Hclaim Runs.no_labels_key Runs.relabelled Runs.relabelled
                {| omni_MachineLabels.Labels := {[ "label1" := "gasp" ]} |} "label1"
                eq_refl eq_refl).
  assert (Hkey : is_Some (({[ "label1" := "gasp" ]} : gmap string string) !! "label1"))
    by (vm_compute; eauto).
  specialize (Hclaim Hkey). vm_compute in Hclaim. discriminate.
Qed.

(** ** The version, the disks and the schematic *)

(** The loop of [pollVersion] over the messages. *)
Lemma pollVersion_messages (msgs : list machineapi.Version) (info : Info) :
  foldl (λ info msg,
      let info := set_TalosVersion (Some (machineapi.GetTag (machineapi.GetVersion msg))) info in
      set_Arch (Some (machineapi.GetArch (machineapi.GetVersion msg))) info)
    info msgs
  = match last msgs with
    | Some msg =>
        set_Arch (Some (machineapi.GetArch (machineapi.GetVersion msg)))
          (set_TalosVersion (Some (machineapi.GetTag (machineapi.GetVersion msg))) info)
    | None => info
    end.
Proof.
  revert info. induction msgs as [|m msgs IH]; intros info; [done|].
  cbn [foldl]. rewrite IH, last_cons. destruct (last msgs) as [m'|]; [|done].
  by destruct info.
Qed.

(** A failed Version call leaves the snapshot as it is; whether the error
    is returned depends on its status code. *)
Lemma pollVersion_failed (c : Client) (info : Info) (e : error) :
  Client_Version c = RpcErr e →
  pollVersion c info =
    (info, if decide (StatusCode (Some e) = codes.Unimplemented) then None else Some e).
Proof.
  intros Hv. unfold pollVersion, pollVersion_on. rewrite Hv. simpl.
  destruct (decide (default codes.Unknown (grpc_status e) = codes.Unimplemented)) as [Hc|Hc].
  - by rewrite (bool_decide_eq_false_2 _ (λ H, H Hc)).
  - by rewrite (bool_decide_eq_true_2 _ Hc).
Qed.

(** C4, as amended.  When the Version call returns an error whose
    status code is [Unimplemented], [pollVersion] returns [nil];
    [Info.TalosVersion] and [Info.Arch] are unchanged when no message came
    back with the error, as when the response is [nil], and otherwise
    both are set from the last message that came back.  For any other
    error it returns that error and leaves the snapshot, those two fields
    included, as it is. *)
Theorem pollVersion_on_error (versionResp : option machineapi.VersionResponse)
    (e : error) (info : Info) :
  (StatusCode (Some e) = codes.Unimplemented →
     (pollVersion_on versionResp (Some e) info).2 = None
     ∧ (machineapi.GetMessages versionResp = [] →
        pollVersion_on versionResp (Some e) info = (info, None))
     ∧ (∀ msg, last (machineapi.GetMessages versionResp) = Some msg →
        (pollVersion_on versionResp (Some e) info).1 =
          set_Arch (Some (machineapi.GetArch (machineapi.GetVersion msg)))
            (set_TalosVersion (Some (machineapi.GetTag (machineapi.GetVersion msg))) info)))
  ∧ (StatusCode (Some e) ≠ codes.Unimplemented →
     pollVersion_on versionResp (Some e) info = (info, Some e))
  ∧ (∀ c, Client_Version c = RpcErr e →
     pollVersion c info = pollVersion_on None (Some e) info
     ∧ TalosVersion (pollVersion c info).1 = TalosVersion info
     ∧ Arch (pollVersion c info).1 = Arch info).
Proof.
  split; [|split].
  - intros Hc. unfold pollVersion_on.
    rewrite (bool_decide_eq_false_2 (StatusCode (Some e) ≠ codes.Unimplemented))
      by (intros Hne; by apply Hne).
    rewrite andb_false_r, pollVersion_messages. split; [done|]. split.
    + by intros ->.
    + by intros msg ->.
  - intros Hc. unfold pollVersion_on.
    by rewrite (bool_decide_eq_true_2 _ Hc), andb_true_r.
  - intros c Hv. split.
    + unfold pollVersion. by rewrite Hv.
    + rewrite (pollVersion_failed c info e Hv). by split.
Qed.

Lemma pollVersion_on_error_witness :
  let e := StatusError codes.Unimplemented "unknown method Version" in
  let c := Example.unreachable e in
  let info := set_TalosVersion (Some "v1.6.0") (set_Arch (Some "amd64") Example.fresh) in
  StatusCode (Some e) = codes.Unimplemented
  ∧ machineapi.GetMessages None = []
  ∧ pollVersion_on None (Some e) info = (info, None)
  ∧ Client_Version c = RpcErr e
  ∧ pollVersion c info = pollVersion_on None (Some e) info
  ∧ (StatusCode (Some Runs.cancelled) ≠ codes.Unimplemented
     ∧ pollVersion_on (Some Extra.late_response) (Some Runs.cancelled) info
       = (info, Some Runs.cancelled)).
Proof.
  intros e c info. split; [reflexivity|]. split; [reflexivity|].
  destruct (pollVersion_on_error None e info) as (Hunimplemented & _ & Hclient).
  split; [exact (proj1 (proj2 (Hunimplemented eq_refl)) eq_refl)|].
  split; [reflexivity|].
  split; [exact (proj1 (Hclient c eq_refl))|].
  split; [discriminate|].
  refine (proj1 (proj2 (pollVersion_on_error (Some Extra.late_response) Runs.cancelled info)) _).
  discriminate.
Defined.

(** C4, as stated, fails: when a message comes back with an
    [Unimplemented] error, [pollVersion] returns [nil] and has set
    [Info.TalosVersion] and [Info.Arch] from that message. *)
Lemma pollVersion_unimplemented_with_message :
  let e := StatusError codes.Unimplemented "unknown method Version" in
  let run := pollVersion_on (Some Extra.late_response) (Some e) Runs.polled in
  StatusCode (Some e) = codes.Unimplemented
  ∧ run.2 = None
  ∧ TalosVersion Runs.polled = Some "v1.6.0"
  ∧ TalosVersion run.1 = Some "v1.7.0"
  ∧ TalosVersion run.1 ≠ TalosVersion Runs.polled
  ∧ Arch Runs.polled = Some "amd64"
  ∧ Arch run.1 = Some "arm64"
  ∧ Arch run.1 ≠ Arch Runs.polled.
Proof. intros e run. repeat split; try reflexivity; discriminate. Qed.

Section SchematicFacts.
Context `{M : Machinery}.

(** C2. [pollExtensions] always leaves a schematic in [Info.Schematic].
    When resolving the schematic id reports the invalid-schematic error,
    the schematic is marked invalid and [pollExtensions] returns [nil];
    when resolving succeeds with id [V], the schematic has id [V], is
    not marked invalid, and [pollExtensions] returns [nil]. *)
Theorem pollExtensions_schematic (c : Client) (info : Info) :
  ∃ s,
    Schematic (pollExtensions c info).1 = Some s
    ∧ (∀ id e, GetSchematicID c = (id, Some e) → errors_Is e ErrInvalidSchematic = true →
         MachineStatusSpec_Schematic.Invalid s = true ∧ (pollExtensions c info).2 = None)
    ∧ (∀ V, GetSchematicID c = (V, None) →
         s = {| MachineStatusSpec_Schematic.Id := V; MachineStatusSpec_Schematic.Invalid := false |}
         ∧ (pollExtensions c info).2 = None).
Proof.
  unfold pollExtensions.
  destruct (GetSchematicID c) as [id [e|]]; simpl.
  - destruct (errors_Is e ErrInvalidSchematic) eqn:His; simpl.
    + eexists. split; [reflexivity|]. split.
      * intros ?? [= <- <-] _. done.
      * intros ? [=].
    + eexists. split; [reflexivity|]. split.
      * intros ?? [= <- <-] Hinv. congruence.
      * intros ? [=].
  - eexists. split; [reflexivity|]. split.
    + intros ?? [=].
    + intros ? [= <-]. done.
Qed.

End SchematicFacts.

Lemma pollExtensions_schematic_witness :
  (@pollExtensions Example.node Runs.just_schematic_id Example.fresh
   = (set_Schematic (Some {| MachineStatusSpec_Schematic.Id := "1234"; MachineStatusSpec_Schematic.Invalid := false |})
        Example.fresh, None))
  ∧ (@pollExtensions Example.node Runs.unknown_extension Example.fresh
     = (set_Schematic (Some {| MachineStatusSpec_Schematic.Id := ""; MachineStatusSpec_Schematic.Invalid := true |})
          Example.fresh, None))
  ∧ (@pollExtensions Example.node Runs.vanilla Example.fresh
     = (set_Schematic
          (Some {| MachineStatusSpec_Schematic.Id := Example.defaultSchematicID; MachineStatusSpec_Schematic.Invalid := false |})
          Example.fresh, None))
  ∧ ∃ s,
      Schematic (@pollExtensions Example.node Runs.unknown_extension Runs.polled).1 = Some s
      ∧ MachineStatusSpec_Schematic.Invalid s = true
      ∧ (@pollExtensions Example.node Runs.unknown_extension Runs.polled).2 = None.
Proof.
  split; [reflexivity|]. split; [reflexivity|]. split; [reflexivity|].
  destruct (@pollExtensions_schematic Example.node Runs.unknown_extension Runs.polled)
    as (s & Hs & Hinvalid & _).
  exists s. split; [exact Hs|].
  exact (Hinvalid "" (Errorf "unknown extensions" ErrInvalidSchematic) eq_refl eq_refl).
Defined.

(** ** Failed runs *)

Section FailedRuns.
Context `{M : Machinery}.

(** C1, as amended.  When the remote call of a poller fails (a cancelled
    call fails), the poller returns the error of the call and no field
    other than its own has changed.  [pollVersion] (for an error other
    than [Unimplemented]), [pollHostname], [pollAddresses],
    [pollPlatformMetadata] and [pollMeta] leave the snapshot as it was.
    [pollRoutes], [pollNetworkLinks], [pollProcessors], [pollMemory] and
    [pollDisks] have reset their field before the call: it is [nil]
    afterwards, whatever it held before.  [pollExtensions] has stored a
    fresh schematic, with the id returned along with the error. *)
Theorem failed_poll_frame (c : Client) (info : Info) (e : error) :
  (Client_Disks c = RpcErr e → pollDisks c info = (set_Blockdevices None info, Some e))
  ∧ (List_RouteStatus c = RpcErr e →
     pollRoutes c info = (set_DefaultGateways None info, Some e))
  ∧ (List_LinkStatus c = RpcErr e →
     pollNetworkLinks c info = (set_NetworkLinks None info, Some e))
  ∧ (List_Processor c = RpcErr e →
     pollProcessors c info = (set_Processors None info, Some e))
  ∧ (List_MemoryModule c = RpcErr e →
     pollMemory c info = (set_MemoryModules None info, Some e))
  ∧ (Client_Version c = RpcErr e → StatusCode (Some e) ≠ codes.Unimplemented →
     pollVersion c info = (info, Some e))
  ∧ (List_HostnameStatus c = RpcErr e → pollHostname c info = (info, Some e))
  ∧ (List_NodeAddress c = RpcErr e → pollAddresses c info = (info, Some e))
  ∧ (List_PlatformMetadata c = RpcErr e → pollPlatformMetadata c info = (info, Some e))
  ∧ (List_MetaKey c = RpcErr e → pollMeta c info = (info, Some e))
  ∧ (∀ id, GetSchematicID c = (id, Some e) → errors_Is e ErrInvalidSchematic = false →
     pollExtensions c info
     = (set_Schematic (Some {| MachineStatusSpec_Schematic.Id := id; MachineStatusSpec_Schematic.Invalid := false |}) info, Some e)).
Proof.
  repeat split.
  - intros H. unfold pollDisks. by rewrite H.
  - intros H. unfold pollRoutes. by rewrite H.
  - intros H. unfold pollNetworkLinks. by rewrite H.
  - intros H. unfold pollProcessors. by rewrite H.
  - intros H. unfold pollMemory. by rewrite H.
  - intros H Hc. rewrite (pollVersion_failed c info e H). by case_decide.
  - intros H. unfold pollHostname. by rewrite H.
  - intros H. unfold pollAddresses. by rewrite H.
  - intros H. unfold pollPlatformMetadata. by rewrite H.
  - intros H. unfold pollMeta. by rewrite H.
  - intros id H His. unfold pollExtensions. rewrite H. simpl. by rewrite His.
Qed.

End FailedRuns.

Lemma failed_poll_frame_witness :
  let c := Example.unreachable Runs.cancelled in
  Client_Disks c = RpcErr Runs.cancelled
  ∧ pollDisks c Runs.polled = (set_Blockdevices None Runs.polled, Some Runs.cancelled)
  ∧ List_RouteStatus c = RpcErr Runs.cancelled
  ∧ @pollRoutes Example.node c Runs.polled
    = (set_DefaultGateways None Runs.polled, Some Runs.cancelled)
  ∧ List_HostnameStatus c = RpcErr Runs.cancelled
  ∧ pollHostname c Runs.polled = (Runs.polled, Some Runs.cancelled).
Proof.
  intros c.
  destruct (@failed_poll_frame Example.node c Runs.polled Runs.cancelled)
    as (Hdisks & Hroutes & _ & _ & _ & _ & Hhost & _).
  split; [reflexivity|]. split; [exact (Hdisks eq_refl)|].
  split; [reflexivity|]. split; [exact (Hroutes eq_refl)|].
  split; [reflexivity|]. exact (Hhost eq_refl).
Defined.

(** C1, as stated, fails: after a run of [pollDisks] whose call is
    cancelled [Info.Blockdevices] is [nil] though it held a disk before,
    and after a run of [pollRoutes] whose listing is cancelled
    [Info.DefaultGateways] is [nil] though it held a gateway before. *)
Lemma failed_run_resets_field :
  let c := Example.unreachable Runs.cancelled in
  (pollDisks c Runs.polled).2 = Some Runs.cancelled
  ∧ Blockdevices Runs.polled = Some [Runs.disk]
  ∧ Blockdevices (pollDisks c Runs.polled).1 = None
  ∧ Blockdevices (pollDisks c Runs.polled).1 ≠ Blockdevices Runs.polled
  ∧ (@pollRoutes Example.node c Runs.polled).2 = Some Runs.cancelled
  ∧ DefaultGateways Runs.polled = Some ["192.168.1.1"]
  ∧ DefaultGateways (@pollRoutes Example.node c Runs.polled).1 = None
  ∧ DefaultGateways (@pollRoutes Example.node c Runs.polled).1 ≠ DefaultGateways Runs.polled.
Proof. intros c. repeat split; try reflexivity; discriminate. Qed.

(** ** The dispatcher *)

Lemma merged_lookup {V} (m1 m2 : gmap string V) (k : string) :
  merged m1 m2 !! k = match m2 !! k with Some v => Some v | None => m1 !! k end.
Proof.
  unfold merged. revert k.
  apply (map_fold_weak_ind (λ res m, ∀ k, res !! k = match m !! k with
                                                     | Some v => Some v
                                                     | None => m1 !! k
                                                     end)).
  - intros k. by rewrite lookup_empty.
  - intros i x m r Hi IH k. destruct (decide (i = k)) as [->|Hne].
    + by rewrite !lookup_insert_eq.
    + rewrite !lookup_insert_ne by done. apply IH.
Qed.

Section Dispatcher.
Context `{M : Machinery}.

(** C10. Provided the nine resource type names differ from each other and
    from "version" and "disks": for every registered name [poll] returns
    what the poller registered under that name returns, and for every
    other name it panics, so that [poll] returns exactly on the
    registered names.  In [merged m1 m2] an entry of [m2] wins over an
    entry of [m1] with the same key. *)
Theorem poll_dispatch (c : Client) (info : Info) :
  let registered : list (string * machinePollFunction) := [
    (HostnameStatusType, pollHostname);
    (RouteStatusType, pollRoutes);
    (NodeAddressType, pollAddresses);
    (LinkStatusType, pollNetworkLinks);
    (ProcessorType, pollProcessors);
    (MemoryModuleType, pollMemory);
    (PlatformMetadataType, pollPlatformMetadata);
    (MetaKeyType, pollMeta);
    (ExtensionStatusType, pollExtensions);
    ("version", pollVersion);
    ("disks", pollDisks)
  ] in
  NoDup registered.*1 →
  (∀ name f, (name, f) ∈ registered → poll name c info = Returns (f c info))
  ∧ (∀ name, name ∉ registered.*1 → poll name c info = Panics name)
  ∧ (∀ name, (∃ r, poll name c info = Returns r) ↔ name ∈ registered.*1)
  ∧ (∀ (V : Type) (m1 m2 : gmap string V) k v,
       m2 !! k = Some v → merged m1 m2 !! k = Some v)
  ∧ (∀ (V : Type) (m1 m2 : gmap string V) k,
       m2 !! k = None → merged m1 m2 !! k = m1 !! k).
Proof.
  intros registered Hnd.
  set (l1 := [(HostnameStatusType, pollHostname); (RouteStatusType, pollRoutes);
              (NodeAddressType, pollAddresses); (LinkStatusType, pollNetworkLinks);
              (ProcessorType, pollProcessors); (MemoryModuleType, pollMemory);
              (PlatformMetadataType, pollPlatformMetadata); (MetaKeyType, pollMeta);
              (ExtensionStatusType, pollExtensions)]) in *.
  set (l2 := [("version", pollVersion); ("disks", pollDisks)]).
  change registered with (l1 ++ l2) in *. clear registered.
  rewrite fmap_app in Hnd. apply NoDup_app in Hnd as (Hnd1 & Hdisj & Hnd2).
  assert (Hlookup : ∀ name, allPollers !! name =
            match (list_to_map l2 : gmap string machinePollFunction) !! name with
            | Some f => Some f
            | None => (list_to_map l1 : gmap string machinePollFunction) !! name
            end).
  { intros name. unfold allPollers, resourcePollers, machinePollers.
    fold l1. fold l2. exact (merged_lookup _ _ name). }
  clearbody l1 l2.
  assert (Hreg : ∀ name f, (name, f) ∈ l1 ++ l2 → poll name c info = Returns (f c info)).
  { intros name f Hin. unfold poll. rewrite Hlookup.
    apply elem_of_app in Hin as [Hin|Hin].
    + rewrite (not_elem_of_list_to_map_1 l2 name).
      * rewrite (elem_of_list_to_map_1 l1 name f Hnd1 Hin). reflexivity.
      * apply Hdisj. apply list_elem_of_fmap. exists (name, f). split; [reflexivity | exact Hin].
    + rewrite (elem_of_list_to_map_1 l2 name f Hnd2 Hin). reflexivity. }
  assert (Hout : ∀ name, name ∉ (l1 ++ l2).*1 → poll name c info = Panics name).
  { intros name Hout. unfold poll. rewrite Hlookup.
    rewrite fmap_app, elem_of_app in Hout.
    rewrite (not_elem_of_list_to_map_1 l2 name) by tauto.
    rewrite (not_elem_of_list_to_map_1 l1 name) by tauto. reflexivity. }
  split; [exact Hreg|]. split; [exact Hout|]. split; [|split].
  - intros name. split.
    + intros [r Hr]. destruct (decide (name ∈ (l1 ++ l2).*1)) as [Hin|Hnin]; [exact Hin|].
      rewrite (Hout name Hnin) in Hr. discriminate.
    + intros Hin. apply list_elem_of_fmap in Hin as ([name' f] & -> & Hin).
      exists (f c info). by apply Hreg.
  - intros V m1 m2 k v Hk. rewrite merged_lookup, Hk. reflexivity.
  - intros V m1 m2 k Hk. rewrite merged_lookup, Hk. reflexivity.
Qed.

End Dispatcher.

Lemma poll_dispatch_witness :
  @poll Example.node "disks" Example.quiet Example.fresh
  = Returns (pollDisks Example.quiet Example.fresh)
  ∧ @poll Example.node "RouteStatuses.net.talos.dev" Runs.machine Example.fresh
    = Returns (@pollRoutes Example.node Runs.machine Example.fresh)
  ∧ @poll Example.node "hostname" Example.quiet Example.fresh = Panics "hostname".
Proof.
  destruct (@poll_dispatch Example.node Example.quiet Example.fresh) as (Hreg & Hout & _).
  { apply (bool_decide_unpack _). vm_compute. reflexivity. }
  destruct (@poll_dispatch Example.node Runs.machine Example.fresh) as (Hreg' & _).
  { apply (bool_decide_unpack _). vm_compute. reflexivity. }
  split; [|split].
  - apply (Hreg "disks" pollDisks).
    repeat first [apply list_elem_of_here | apply list_elem_of_further].
  - apply (Hreg' "RouteStatuses.net.talos.dev" (@pollRoutes Example.node)).
    repeat first [apply list_elem_of_here | apply list_elem_of_further].
  - apply Hout. apply (bool_decide_unpack _). vm_compute. reflexivity.
Defined.

(** * Further properties of the pollers *)

(** ** Slices *)

Lemma version_slice_lawful : lawful version_slice.
Proof. repeat split; try by_fields. by intros [a b] []. Qed.

Lemma hostname_slice_lawful : lawful hostname_slice.
Proof. repeat split; try by_fields. by intros [a b] []. Qed.

Lemma addresses_slice_lawful : lawful addresses_slice.
Proof. repeat split; by_fields. Qed.

Lemma gateways_slice_lawful : lawful gateways_slice.
Proof. repeat split; by_fields. Qed.

Lemma links_slice_lawful : lawful links_slice.
Proof. repeat split; by_fields. Qed.

Lemma processors_slice_lawful : lawful processors_slice.
Proof. repeat split; by_fields. Qed.

Lemma memory_slice_lawful : lawful memory_slice.
Proof. repeat split; by_fields. Qed.

Lemma disks_slice_lawful : lawful disks_slice.
Proof. repeat split; by_fields. Qed.

Lemma platform_slice_lawful : lawful platform_slice.
Proof. repeat split; by_fields. Qed.

Lemma schematic_slice_lawful : lawful schematic_slice.
Proof. repeat split; by_fields. Qed.

Lemma labels_slice_lawful : lawful labels_slice.
Proof. repeat split; by_fields. Qed.

Section Locality.
Context {T A : Type} (L : lens A) (callback : T → Info → Info * option error).

Lemma scan_foreign (s : Info → Info) (items : list T) (info : Info) :
  (∀ r i, callback r (s i) = (s (callback r i).1, (callback r i).2)) →
  scan callback items (s info) = (s (scan callback items info).1, (scan callback items info).2).
Proof.
  intros Hcb. revert info. induction items as [|r items IH]; intros info; simpl; [done|].
  rewrite Hcb. destruct (callback r info) as [i [err|]]; simpl; [done | apply IH].
Qed.

Lemma scan_footprint (items : list T) (info : Info) :
  lawful L →
  (∀ r i, (callback r i).1 = store L (view L (callback r i).1) i) →
  (scan callback items info).1 = store L (view L (scan callback items info).1) info.
Proof.
  intros (Hvs & Hss & Hsv) Hcb.
  assert (Hex : ∃ v, (scan callback items info).1 = store L v info).
  { apply (scan_preserves callback (λ i, ∃ v, i = store L v info)).
    - intros r i [v ->]. rewrite Hcb, Hss. eauto.
    - exists (view L info). by rewrite Hsv. }
  destruct Hex as [v Hv]. by rewrite Hv, Hvs.
Qed.

(** A resource poller is local when its callback is. *)
Lemma forEachResource_local (listed : rpc_result (list T)) :
  lawful L →
  (∀ r, local L (callback r)) →
  local L (forEachResource listed callback).
Proof.
  intros Hlaw Hcb. destruct listed as [items|err]; simpl.
  - split.
    + intros i. apply scan_footprint; [done|]. intros r i'. apply (Hcb r).
    + intros s Hs i. apply scan_foreign. intros r i'. by apply (Hcb r).
  - split; [|done]. intros i. simpl. by rewrite (proj2 (proj2 Hlaw)).
Qed.

(** A poller that resets its slice before a local run is local. *)
Lemma reset_local (v0 : A) (f : Info → Info * option error) :
  lawful L → local L f → local L (λ i, f (store L v0 i)).
Proof.
  intros (Hvs & Hss & Hsv) [Hfoot Hfor]. split.
  - intros i. rewrite (Hfoot (store L v0 i)) at 1. by rewrite Hss.
  - intros s Hs i. rewrite <- (proj1 Hs). by apply Hfor.
Qed.

End Locality.

Section LocalRuns.
Context {A : Type} (L : lens A).

(** Replacing the slice by a function of what it held is a local run. *)
Lemma update_local (u : A → A) (e : option error) :
  lawful L → local L (λ i, (store L (u (view L i)) i, e)).
Proof.
  intros (Hvs & Hss & Hsv). split.
  - intros i. simpl. by rewrite Hvs.
  - intros s (Hs1 & Hs2 & _) i. simpl. by rewrite Hs2, Hs1.
Qed.

Lemma store_local (v : A) (e : option error) :
  lawful L → local L (λ i, (store L v i, e)).
Proof. exact (update_local (λ _, v) e). Qed.

Lemma skip_local (e : option error) :
  lawful L → local L (λ i, (i, e)).
Proof.
  intros Hlaw. split.
  - intros i. simpl. by rewrite (proj2 (proj2 Hlaw)).
  - done.
Qed.

Lemma local_ext (f g : Info → Info * option error) :
  (∀ i, f i = g i) → local L f → local L g.
Proof.
  intros Hfg [Hfoot Hfor]. split.
  - intros i. rewrite <- Hfg. apply Hfoot.
  - intros s Hs i. rewrite <- !Hfg. by apply Hfor.
Qed.

(** A run may read [MaintenanceMode] and [MachineLabels]. *)
Lemma local_read_mode (f : bool → Info → Info * option error) :
  (∀ m, local L (f m)) → local L (λ i, f (MaintenanceMode i) i).
Proof.
  intros Hf. split.
  - intros i. apply (Hf (MaintenanceMode i)).
  - intros s Hs i. rewrite (proj1 (proj2 (proj2 Hs))). by apply (Hf (MaintenanceMode i)).
Qed.

Lemma local_read_labels (f : option omni_MachineLabels.t → Info → Info * option error) :
  (∀ ml, local L (f ml)) → local L (λ i, f (MachineLabels i) i).
Proof.
  intros Hf. split.
  - intros i. apply (Hf (MachineLabels i)).
  - intros s Hs i. rewrite (proj2 (proj2 (proj2 Hs))). by apply (Hf (MachineLabels i)).
Qed.

(** A scan whose callback stores a value taken from the resource leaves
    the value of the last resource. *)
Lemma scan_store_last {T} (g : T → A) (callback : T → Info → Info * option error)
    (items : list T) (info : Info) :
  lawful L →
  (∀ r i, callback r i = (store L (g r) i, None)) →
  scan callback items info =
    (match last items with Some r => store L (g r) info | None => info end, None).
Proof.
  intros (Hvs & Hss & Hsv) Hcb. revert info.
  induction items as [|r items IH]; intros info; simpl scan; [done|].
  rewrite Hcb, IH, last_cons. destruct (last items) as [r'|]; [|done].
  by rewrite Hss.
Qed.

End LocalRuns.

(** ** The unary calls *)

Lemma extend_extend {A} (s : slice A) (l1 l2 : list A) :
  extend (extend s l1) l2 = extend s (l1 ++ l2).
Proof.
  destruct l1 as [|x l1]; [done|]. destruct l2 as [|y l2]; simpl.
  - by rewrite app_nil_r.
  - by rewrite <- app_assoc.
Qed.

Lemma pollVersion_answered (c : Client) (info : Info) (resp : machineapi.VersionResponse) :
  Client_Version c = RpcOk resp →
  pollVersion c info =
    (match last (machineapi.VMessages resp) with
     | Some msg =>
         set_Arch (Some (machineapi.GetArch (machineapi.GetVersion msg)))
           (set_TalosVersion (Some (machineapi.GetTag (machineapi.GetVersion msg))) info)
     | None => info
     end, None).
Proof.
  intros Hv. unfold pollVersion, pollVersion_on. rewrite Hv. simpl.
  by rewrite pollVersion_messages.
Qed.

(** The loops of [pollDisks] over the disks of a message and over the
    messages. *)
Lemma pollDisks_disks (disks : list storage.Disk) (info : Info) :
  foldl (λ info disk, set_Blockdevices (append (Blockdevices info) (blockDevice disk)) info)
    info disks
  = set_Blockdevices (extend (Blockdevices info) (blockDevice <$> disks)) info.
Proof.
  revert info. induction disks as [|d disks IH]; intros info; cbn [foldl].
  - by destruct info.
  - rewrite IH. simpl. rewrite extend_append. by destruct info.
Qed.

Lemma pollDisks_messages (msgs : list storage.Disks) (info : Info) :
  foldl (λ info msg,
      foldl (λ info disk,
          set_Blockdevices (append (Blockdevices info) (blockDevice disk)) info)
        info (storage.GetDisks msg))
    info msgs
  = set_Blockdevices
      (extend (Blockdevices info) (blockDevice <$> concat (storage.GetDisks <$> msgs))) info.
Proof.
  revert info. induction msgs as [|m msgs IH]; intros info; cbn [foldl].
  - by destruct info.
  - rewrite pollDisks_disks, IH. simpl.
    rewrite extend_extend, fmap_app. by destruct info.
Qed.

Lemma pollDisks_answered (c : Client) (info : Info) (resp : storage.DisksResponse) :
  Client_Disks c = RpcOk resp →
  pollDisks c info =
    (set_Blockdevices
       (extend None (blockDevice <$> concat (storage.GetDisks <$> storage.DMessages resp)))
       info, None).
Proof.
  intros Hd. unfold pollDisks. rewrite Hd. simpl.
  rewrite pollDisks_messages. by destruct info.
Qed.

Lemma pollDisks_failed (c : Client) (info : Info) (e : error) :
  Client_Disks c = RpcErr e →
  pollDisks c info = (set_Blockdevices None info, Some e).
Proof. intros Hd. unfold pollDisks. by rewrite Hd. Qed.

(** ** What a run depends on, and what it changes *)

Lemma settles_local {A} (L : lens A) (f : Info → Info * option error) :
  lawful L → settles L f → local L f.
Proof.
  intros Hlaw (v & e & Hf).
  apply (local_ext L (λ i, (store L v i, e))); [done|]. by apply store_local.
Qed.

Lemma settles_idempotent {A} (L : lens A) (f : Info → Info * option error) (i : Info) :
  lawful L → settles L f → f (f i).1 = f i.
Proof.
  intros (_ & Hss & _) (v & e & Hf). rewrite !Hf. simpl. by rewrite Hss.
Qed.

Section OverwriteScan.
Context {T A : Type} (L : lens A).
Context (h : T → Info → option A * option error).
Context (callback : T → Info → Info * option error).
Hypothesis Hlaw : lawful L.
Hypothesis h_elsewhere : ∀ r w i, h r (store L w i) = h r i.
Hypothesis callback_h :
  ∀ r i, callback r i =
    match h r i with
    | (Some v, e) => (store L v i, e)
    | (None, e) => (i, e)
    end.

(** A scan whose callback stores into the slice a value that does not
    depend on what the slice held: either no resource made it store, or
    the outcome is the same whatever the slice held at the start. *)
Lemma scan_overwrite (items : list T) (info : Info) :
  ∃ e, scan callback items info = (info, e)
       ∨ ∃ v, ∀ w, scan callback items (store L w info) = (store L v info, e).
Proof using Hlaw h_elsewhere callback_h.
  destruct Hlaw as (Hvs & Hss & Hsv).
  revert info. induction items as [|r items IH]; intros info.
  - exists None. by left.
  - simpl scan. rewrite callback_h.
    destruct (h r info) as [[v0|] [err|]] eqn:Hh.
    + exists (Some err). right. exists v0. intros w. simpl scan.
      by rewrite callback_h, h_elsewhere, Hh, Hss.
    + destruct (IH (store L v0 info)) as [e [Hsame|[v Hover]]].
      * exists e. right. exists v0. intros w. simpl scan.
        by rewrite callback_h, h_elsewhere, Hh, Hss, Hsame.
      * exists e. right. exists v. intros w. simpl scan.
        rewrite callback_h, h_elsewhere, Hh, Hss.
        specialize (Hover v0). by rewrite !Hss in Hover.
    + exists (Some err). by left.
    + destruct (IH info) as [e [Hsame|[v Hover]]].
      * exists e. by left.
      * exists e. right. exists v. intros w. simpl scan.
        by rewrite callback_h, h_elsewhere, Hh.
Qed.

Lemma scan_overwrite_idempotent (items : list T) (info : Info) :
  scan callback items (scan callback items info).1 = scan callback items info.
Proof using Hlaw h_elsewhere callback_h.
  destruct (scan_overwrite items info) as [e [Hsame|[v Hover]]].
  - rewrite Hsame. simpl. apply Hsame.
  - pose proof (Hover (view L info)) as H0.
    rewrite (proj2 (proj2 Hlaw)) in H0. rewrite H0. simpl. apply Hover.
Qed.

Lemma forEachResource_overwrite_idempotent (listed : rpc_result (list T)) (info : Info) :
  forEachResource listed callback (forEachResource listed callback info).1
  = forEachResource listed callback info.
Proof using Hlaw h_elsewhere callback_h.
  destruct listed as [items|err]; simpl; [apply scan_overwrite_idempotent | done].
Qed.

End OverwriteScan.

Section LocalPollers.
Context `{M : Machinery}.

Lemma pollVersion_local (c : Client) : local version_slice (pollVersion c).
Proof.
  destruct (Client_Version c) as [resp|e] eqn:Hv.
  - destruct (last (machineapi.VMessages resp)) as [msg|] eqn:Hlast.
    + apply (local_ext _ (λ i, (store version_slice
                                  (Some (machineapi.GetTag (machineapi.GetVersion msg)),
                                   Some (machineapi.GetArch (machineapi.GetVersion msg))) i,
                                None))).
      * intros i. by rewrite (pollVersion_answered c i resp Hv), Hlast.
      * apply store_local, version_slice_lawful.
    + apply (local_ext _ (λ i, (i, None))).
      * intros i. by rewrite (pollVersion_answered c i resp Hv), Hlast.
      * apply skip_local, version_slice_lawful.
  - apply (local_ext _ (λ i, (i, if decide (StatusCode (Some e) = codes.Unimplemented)
                                 then None else Some e))).
    + intros i. by rewrite (pollVersion_failed c i e Hv).
    + apply skip_local, version_slice_lawful.
Qed.

Lemma pollVersion_idempotent (c : Client) (info : Info) :
  pollVersion c (pollVersion c info).1 = pollVersion c info.
Proof.
  destruct (Client_Version c) as [resp|e] eqn:Hv.
  - rewrite !(pollVersion_answered c _ resp Hv).
    destruct (last (machineapi.VMessages resp)); [|done]. by destruct info.
  - by rewrite !(pollVersion_failed c _ e Hv).
Qed.

Lemma pollDisks_settles (c : Client) : settles disks_slice (pollDisks c).
Proof.
  destruct (Client_Disks c) as [resp|e] eqn:Hd.
  - eexists _, None. intros i. apply (pollDisks_answered c i resp Hd).
  - exists None, (Some e). intros i. apply (pollDisks_failed c i e Hd).
Qed.

Lemma pollRoutes_settles (c : Client) : settles gateways_slice (pollRoutes c).
Proof.
  destruct (List_RouteStatus c) as [items|e] eqn:Hl.
  - eexists _, None. intros i. apply (pollRoutes_listed c i items Hl).
  - exists None, (Some e). intros i. unfold pollRoutes. by rewrite Hl.
Qed.

Lemma pollNetworkLinks_settles (c : Client) : settles links_slice (pollNetworkLinks c).
Proof.
  destruct (List_LinkStatus c) as [items|e] eqn:Hl.
  - eexists _, None. intros i. apply (pollNetworkLinks_listed c i items Hl).
  - exists None, (Some e). intros i. unfold pollNetworkLinks. by rewrite Hl.
Qed.

Lemma pollProcessors_settles (c : Client) : settles processors_slice (pollProcessors c).
Proof.
  destruct (List_Processor c) as [items|e] eqn:Hl.
  - eexists _, None. intros i. apply (pollProcessors_listed c i items Hl).
  - exists None, (Some e). intros i. unfold pollProcessors. by rewrite Hl.
Qed.

Lemma pollMemory_settles (c : Client) : settles memory_slice (pollMemory c).
Proof.
  destruct (List_MemoryModule c) as [items|e] eqn:Hl.
  - eexists _, None. intros i. apply (pollMemory_listed c i items Hl).
  - exists None, (Some e). intros i. unfold pollMemory. by rewrite Hl.
Qed.

Lemma pollExtensions_settles (c : Client) : settles schematic_slice (pollExtensions c).
Proof.
  unfold settles, pollExtensions.
  destruct (GetSchematicID c) as [id [e|]].
  - destruct (errors_Is e ErrInvalidSchematic).
    + exists (Some {| MachineStatusSpec_Schematic.Id := id;
                      MachineStatusSpec_Schematic.Invalid := true |}), None.
      intros i. by destruct i.
    + exists (Some {| MachineStatusSpec_Schematic.Id := id;
                      MachineStatusSpec_Schematic.Invalid := false |}), (Some e).
      intros i. by destruct i.
  - exists (Some {| MachineStatusSpec_Schematic.Id := id;
                    MachineStatusSpec_Schematic.Invalid := false |}), None.
    intros i. by destruct i.
Qed.

End LocalPollers.

Section OverwriteCallback.
Context {T A : Type} (L : lens A).
Context (h : T → Info → option A * option error).
Context (callback : T → Info → Info * option error).
Hypothesis Hlaw : lawful L.
Hypothesis h_foreign : ∀ s, foreign L s → ∀ r i, h r (s i) = h r i.
Hypothesis callback_h :
  ∀ r i, callback r i =
    match h r i with
    | (Some v, e) => (store L v i, e)
    | (None, e) => (i, e)
    end.

Lemma overwrite_callback_local (r : T) : local L (callback r).
Proof using Hlaw h_foreign callback_h.
  destruct Hlaw as (Hvs & Hss & Hsv). split.
  - intros i. rewrite callback_h. destruct (h r i) as [[v|] e]; simpl; by rewrite ?Hvs, ?Hsv.
  - intros s Hs i. rewrite !callback_h, (h_foreign s Hs).
    destruct (h r i) as [[v|] e]; simpl; [|done]. by rewrite (proj1 Hs).
Qed.

End OverwriteCallback.

Section OverwritingPollers.
Context `{M : Machinery}.

Lemma pollHostname_callback_stored (r : HostnameStatus.t) (i : Info) :
  pollHostname_callback r i =
    match hostname_stored r i with
    | (Some v, e) => (store hostname_slice v i, e)
    | (None, e) => (i, e)
    end.
Proof. reflexivity. Qed.

Lemma pollPlatformMetadata_callback_stored (r : PlatformMetadataSpec.t) (i : Info) :
  pollPlatformMetadata_callback r i =
    match platform_stored r i with
    | (Some v, e) => (store platform_slice v i, e)
    | (None, e) => (i, e)
    end.
Proof. reflexivity. Qed.

Lemma pollAddresses_callback_stored (r : NodeAddress.t) (i : Info) :
  pollAddresses_callback r i =
    match addresses_stored r i with
    | (Some v, e) => (store addresses_slice v i, e)
    | (None, e) => (i, e)
    end.
Proof.
  unfold addresses_stored. destruct (filterAddresses (MaintenanceMode i) r) eqn:Hsel.
  - by apply pollAddresses_callback_selected.
  - by apply pollAddresses_callback_other.
Qed.

Lemma pollMeta_callback_stored (metaKey : MetaKey.t) (i : Info) :
  pollMeta_callback metaKey i =
    match labels_stored metaKey i with
    | (Some v, e) => (store labels_slice v i, e)
    | (None, e) => (i, e)
    end.
Proof.
  unfold labels_stored. destruct (labels_meta_key metaKey) eqn:Hsel.
  - rewrite pollMeta_callback_labels by done. by destruct (ParseLabels _).
  - by apply pollMeta_callback_other.
Qed.

Lemma pollHostname_local (c : Client) : local hostname_slice (pollHostname c).
Proof.
  apply forEachResource_local; [apply hostname_slice_lawful|].
  apply (overwrite_callback_local _ hostname_stored);
    [apply hostname_slice_lawful | done | apply pollHostname_callback_stored].
Qed.

Lemma pollPlatformMetadata_local (c : Client) : local platform_slice (pollPlatformMetadata c).
Proof.
  apply forEachResource_local; [apply platform_slice_lawful|].
  apply (overwrite_callback_local _ platform_stored);
    [apply platform_slice_lawful | done | apply pollPlatformMetadata_callback_stored].
Qed.

Lemma pollAddresses_local (c : Client) : local addresses_slice (pollAddresses c).
Proof.
  apply forEachResource_local; [apply addresses_slice_lawful|].
  apply (overwrite_callback_local _ addresses_stored);
    [apply addresses_slice_lawful | | apply pollAddresses_callback_stored].
  intros s (_ & _ & Hmode & _) r i. unfold addresses_stored. by rewrite Hmode.
Qed.

Lemma pollMeta_local (c : Client) : local labels_slice (pollMeta c).
Proof.
  apply forEachResource_local; [apply labels_slice_lawful|].
  apply (overwrite_callback_local _ labels_stored);
    [apply labels_slice_lawful | | apply pollMeta_callback_stored].
  intros s (_ & _ & _ & Hlabels) r i. unfold labels_stored. by rewrite Hlabels.
Qed.

Lemma pollHostname_idempotent (c : Client) (info : Info) :
  pollHostname c (pollHostname c info).1 = pollHostname c info.
Proof.
  apply (forEachResource_overwrite_idempotent hostname_slice hostname_stored);
    [apply hostname_slice_lawful | done | apply pollHostname_callback_stored].
Qed.

Lemma pollPlatformMetadata_idempotent (c : Client) (info : Info) :
  pollPlatformMetadata c (pollPlatformMetadata c info).1 = pollPlatformMetadata c info.
Proof.
  apply (forEachResource_overwrite_idempotent platform_slice platform_stored);
    [apply platform_slice_lawful | done | apply pollPlatformMetadata_callback_stored].
Qed.

Lemma pollAddresses_idempotent (c : Client) (info : Info) :
  pollAddresses c (pollAddresses c info).1 = pollAddresses c info.
Proof.
  apply (forEachResource_overwrite_idempotent addresses_slice addresses_stored);
    [apply addresses_slice_lawful | | apply pollAddresses_callback_stored].
  intros r w i. unfold addresses_stored. by destruct i.
Qed.

Lemma pollMeta_idempotent (c : Client) (info : Info) :
  pollMeta c (pollMeta c info).1 = pollMeta c info.
Proof.
  apply (forEachResource_overwrite_idempotent labels_slice labels_stored);
    [apply labels_slice_lawful | | apply pollMeta_callback_stored].
  intros r w i. unfold labels_stored. by destruct i.
Qed.

Lemma allPollers_registered (name : string) (f : machinePollFunction) :
  allPollers !! name = Some f → (name, f) ∈ registered.
Proof.
  unfold allPollers. rewrite merged_lookup.
  destruct (machinePollers !! name) as [g|] eqn:Hm.
  - intros [= ->]. apply elem_of_list_to_map_2 in Hm.
    unfold registered. do 9 apply list_elem_of_further. exact Hm.
  - intros Hr. apply elem_of_list_to_map_2 in Hr.
    exact (proj2 (elem_of_app _ [("version", pollVersion); ("disks", pollDisks)] _)
             (or_introl Hr)).
Qed.

End OverwritingPollers.

(** Two local runs on slices that are apart can be swapped. *)
Lemma local_commute {A B} (L1 : lens A) (L2 : lens B) (f g : Info → Info * option error)
    (i : Info) :
  local L1 f → local L2 g → apart L1 L2 →
  (g (f i).1).1 = (f (g i).1).1
  ∧ (g (f i).1).2 = (g i).2
  ∧ (f (g i).1).2 = (f i).2.
Proof.
  intros [Hf1 Hf2] [Hg1 Hg2] [H12 H21].
  pose proof (Hg2 _ (H12 (view L1 (f i).1)) i) as Hgf. rewrite <- Hf1 in Hgf.
  pose proof (Hf2 _ (H21 (view L2 (g i).1)) i) as Hfg. rewrite <- Hg1 in Hfg.
  rewrite Hgf, Hfg. simpl. split; [|done].
  rewrite (Hf1 i) at 2. rewrite (Hg1 i) at 1.
  apply (proj1 (H12 (view L1 (f i).1))).
Qed.

Section PollerAlgebra.
Context `{M : Machinery}.

(** X4. Whatever the node answers, a poller changes no field of [Info]
    other than its own: the result of a run is the snapshot it started
    from with that field (for [pollVersion] and [pollHostname], those two
    fields) stored anew. *)
Theorem poller_footprints (c : Client) (info : Info) :
  (∃ v a, (pollVersion c info).1 = set_Arch a (set_TalosVersion v info))
  ∧ (∃ h d, (pollHostname c info).1 = set_Domainname d (set_Hostname h info))
  ∧ (∃ v, (pollAddresses c info).1 = set_Addresses v info)
  ∧ (∃ v, (pollRoutes c info).1 = set_DefaultGateways v info)
  ∧ (∃ v, (pollNetworkLinks c info).1 = set_NetworkLinks v info)
  ∧ (∃ v, (pollProcessors c info).1 = set_Processors v info)
  ∧ (∃ v, (pollMemory c info).1 = set_MemoryModules v info)
  ∧ (∃ v, (pollPlatformMetadata c info).1 = set_PlatformMetadata v info)
  ∧ (∃ v, (pollDisks c info).1 = set_Blockdevices v info)
  ∧ (∃ v, (pollMeta c info).1 = set_ImageLabels v info)
  ∧ (∃ v, (pollExtensions c info).1 = set_Schematic v info).
Proof.
  repeat split.
  - eexists _, _. apply (proj1 (pollVersion_local c) info).
  - eexists _, _. apply (proj1 (pollHostname_local c) info).
  - eexists. apply (proj1 (pollAddresses_local c) info).
  - destruct (pollRoutes_settles c) as (v & e & H). exists v. by rewrite H.
  - destruct (pollNetworkLinks_settles c) as (v & e & H). exists v. by rewrite H.
  - destruct (pollProcessors_settles c) as (v & e & H). exists v. by rewrite H.
  - destruct (pollMemory_settles c) as (v & e & H). exists v. by rewrite H.
  - eexists. apply (proj1 (pollPlatformMetadata_local c) info).
  - destruct (pollDisks_settles c) as (v & e & H). exists v. by rewrite H.
  - eexists. apply (proj1 (pollMeta_local c) info).
  - destruct (pollExtensions_settles c) as (v & e & H). exists v. by rewrite H.
Qed.

Lemma registered_local (name : string) (f : machinePollFunction) (c : Client) :
  (name, f) ∈ registered →
  local version_slice (f c) ∨ local hostname_slice (f c) ∨ local addresses_slice (f c)
  ∨ local gateways_slice (f c) ∨ local links_slice (f c) ∨ local processors_slice (f c)
  ∨ local memory_slice (f c) ∨ local platform_slice (f c) ∨ local disks_slice (f c)
  ∨ local labels_slice (f c) ∨ local schematic_slice (f c).
Proof.
  intros Hin. split_registered Hin.
  - right; left. apply pollHostname_local.
  - do 3 right; left. apply settles_local, pollRoutes_settles. apply gateways_slice_lawful.
  - do 2 right; left. apply pollAddresses_local.
  - do 4 right; left. apply settles_local, pollNetworkLinks_settles. apply links_slice_lawful.
  - do 5 right; left. apply settles_local, pollProcessors_settles. apply processors_slice_lawful.
  - do 6 right; left. apply settles_local, pollMemory_settles. apply memory_slice_lawful.
  - do 7 right; left. apply pollPlatformMetadata_local.
  - do 9 right; left. apply pollMeta_local.
  - do 10 right. apply settles_local, pollExtensions_settles. apply schematic_slice_lawful.
  - left. apply pollVersion_local.
  - do 8 right; left. apply settles_local, pollDisks_settles. apply disks_slice_lawful.
Qed.

(** X5. No poller reached through [poll] changes [Info.MaintenanceMode]
    or [Info.MachineLabels], whether its run succeeds or fails. *)
Theorem poll_keeps_mode_and_labels (name : string) (c : Client) (info : Info)
    (r : Info * option error) :
  poll name c info = Returns r →
  MaintenanceMode r.1 = MaintenanceMode info ∧ MachineLabels r.1 = MachineLabels info.
Proof.
  unfold poll. destruct (allPollers !! name) as [f|] eqn:Hf; [|discriminate].
  intros [= <-]. apply allPollers_registered in Hf.
  destruct (registered_local name f c Hf)
    as [H|[H|[H|[H|[H|[H|[H|[H|[H|[H|H]]]]]]]]]];
    rewrite (proj1 H info); by destruct info.
Qed.

Lemma registered_idempotent (name : string) (f : machinePollFunction) (c : Client)
    (info : Info) :
  (name, f) ∈ registered → f c (f c info).1 = f c info.
Proof.
  intros Hin. split_registered Hin.
  - apply pollHostname_idempotent.
  - apply (settles_idempotent gateways_slice), pollRoutes_settles. apply gateways_slice_lawful.
  - apply pollAddresses_idempotent.
  - apply (settles_idempotent links_slice), pollNetworkLinks_settles. apply links_slice_lawful.
  - apply (settles_idempotent processors_slice), pollProcessors_settles.
    apply processors_slice_lawful.
  - apply (settles_idempotent memory_slice), pollMemory_settles. apply memory_slice_lawful.
  - apply pollPlatformMetadata_idempotent.
  - apply pollMeta_idempotent.
  - apply (settles_idempotent schematic_slice), pollExtensions_settles.
    apply schematic_slice_lawful.
  - apply pollVersion_idempotent.
  - apply (settles_idempotent disks_slice), pollDisks_settles. apply disks_slice_lawful.
Qed.

(** X6. Polling again changes nothing: when [poll] has returned from a
    poller, running the same poller against the same answers of the node,
    on the snapshot it left, leaves that snapshot and returns the same
    error. *)
Theorem poll_idempotent (name : string) (c : Client) (info : Info)
    (r : Info * option error) :
  poll name c info = Returns r → poll name c r.1 = Returns r.
Proof.
  unfold poll. destruct (allPollers !! name) as [f|] eqn:Hf; [|discriminate].
  intros [= <-]. f_equal. apply (registered_idempotent name), allPollers_registered, Hf.
Qed.

End PollerAlgebra.

Section PollerOrder.
Context `{M : Machinery}.

Lemma pollRoutes_local (c : Client) : local gateways_slice (pollRoutes c).
Proof. apply settles_local, pollRoutes_settles. apply gateways_slice_lawful. Qed.

Lemma pollNetworkLinks_local (c : Client) : local links_slice (pollNetworkLinks c).
Proof. apply settles_local, pollNetworkLinks_settles. apply links_slice_lawful. Qed.

Lemma pollProcessors_local (c : Client) : local processors_slice (pollProcessors c).
Proof. apply settles_local, pollProcessors_settles. apply processors_slice_lawful. Qed.

Lemma pollMemory_local (c : Client) : local memory_slice (pollMemory c).
Proof. apply settles_local, pollMemory_settles. apply memory_slice_lawful. Qed.

Lemma pollDisks_local (c : Client) : local disks_slice (pollDisks c).
Proof. apply settles_local, pollDisks_settles. apply disks_slice_lawful. Qed.

Lemma pollExtensions_local (c : Client) : local schematic_slice (pollExtensions c).
Proof. apply settles_local, pollExtensions_settles. apply schematic_slice_lawful. Qed.

#[local] Hint Resolve pollVersion_local pollHostname_local pollAddresses_local
  pollRoutes_local pollNetworkLinks_local pollProcessors_local pollMemory_local
  pollPlatformMetadata_local pollDisks_local pollMeta_local pollExtensions_local : pollers.

(** X7. Two different pollers can run in either order: from the same
    snapshot and against the same answers of the node, both orders leave
    the same snapshot, and each poller returns the error it returns when
    it runs first. *)
Theorem pollers_commute (c : Client) (info : Info) (n1 n2 : string)
    (f1 f2 : machinePollFunction) :
  allPollers !! n1 = Some f1 →
  allPollers !! n2 = Some f2 →
  n1 ≠ n2 →
  (f2 c (f1 c info).1).1 = (f1 c (f2 c info).1).1
  ∧ (f2 c (f1 c info).1).2 = (f2 c info).2
  ∧ (f1 c (f2 c info).1).2 = (f1 c info).2.
Proof.
  intros H1 H2 Hne.
  apply allPollers_registered in H1, H2.
  split_registered H1; split_registered H2; try done;
    (eapply local_commute; [eauto with pollers | eauto with pollers | solve_apart]).
Qed.

(** X8. [pollRoutes], [pollNetworkLinks], [pollProcessors], [pollMemory],
    [pollDisks] and [pollExtensions] rebuild their field from the answers
    of the node alone: neither the field they leave nor the error they
    return depends on the snapshot they start from. *)
Theorem rebuilt_from_the_node (c : Client) (i1 i2 : Info) :
  (DefaultGateways (pollRoutes c i1).1 = DefaultGateways (pollRoutes c i2).1
   ∧ (pollRoutes c i1).2 = (pollRoutes c i2).2)
  ∧ (NetworkLinks (pollNetworkLinks c i1).1 = NetworkLinks (pollNetworkLinks c i2).1
     ∧ (pollNetworkLinks c i1).2 = (pollNetworkLinks c i2).2)
  ∧ (Processors (pollProcessors c i1).1 = Processors (pollProcessors c i2).1
     ∧ (pollProcessors c i1).2 = (pollProcessors c i2).2)
  ∧ (MemoryModules (pollMemory c i1).1 = MemoryModules (pollMemory c i2).1
     ∧ (pollMemory c i1).2 = (pollMemory c i2).2)
  ∧ (Blockdevices (pollDisks c i1).1 = Blockdevices (pollDisks c i2).1
     ∧ (pollDisks c i1).2 = (pollDisks c i2).2)
  ∧ (Schematic (pollExtensions c i1).1 = Schematic (pollExtensions c i2).1
     ∧ (pollExtensions c i1).2 = (pollExtensions c i2).2).
Proof.
  split; [|split; [|split; [|split; [|split]]]].
  - destruct (pollRoutes_settles c) as (v & e & H). rewrite !H. by destruct i1, i2.
  - destruct (pollNetworkLinks_settles c) as (v & e & H). rewrite !H. by destruct i1, i2.
  - destruct (pollProcessors_settles c) as (v & e & H). rewrite !H. by destruct i1, i2.
  - destruct (pollMemory_settles c) as (v & e & H). rewrite !H. by destruct i1, i2.
  - destruct (pollDisks_settles c) as (v & e & H). rewrite !H. by destruct i1, i2.
  - destruct (pollExtensions_settles c) as (v & e & H). rewrite !H. by destruct i1, i2.
Qed.

End PollerOrder.

(** ** Successful runs *)

Section SuccessfulRuns.
Context `{M : Machinery}.

(** X1. When the Version call succeeds, [pollVersion] returns [nil]; with
    no message in the response the snapshot is unchanged, and otherwise
    [Info.TalosVersion] and [Info.Arch] are both set, from the last
    message of the response (to empty strings when that message carries
    no version), and nothing else changes. *)
Theorem pollVersion_last_message (c : Client) (info : Info)
    (resp : machineapi.VersionResponse) :
  Client_Version c = RpcOk resp →
  (pollVersion c info).2 = None
  ∧ (machineapi.VMessages resp = [] → (pollVersion c info).1 = info)
  ∧ ∀ msg, last (machineapi.VMessages resp) = Some msg →
      (pollVersion c info).1 =
        set_Arch (Some (machineapi.GetArch (machineapi.GetVersion msg)))
          (set_TalosVersion (Some (machineapi.GetTag (machineapi.GetVersion msg))) info)
      ∧ (machineapi.GetVersion msg = None →
         TalosVersion (pollVersion c info).1 = Some ""
         ∧ Arch (pollVersion c info).1 = Some "").
Proof.
  intros Hv. rewrite (pollVersion_answered c info resp Hv). split; [done|]. split.
  - by intros ->.
  - intros msg ->. split; [done|]. by intros ->.
Qed.

(** X2. When the Disks call succeeds, [pollDisks] returns [nil] and
    [Info.Blockdevices] holds one record per disk of the response, message
    after message and disk after disk; it is [nil] exactly when the
    response lists no disk, and nothing else changes. *)
Theorem pollDisks_blockdevices (c : Client) (info : Info) (resp : storage.DisksResponse) :
  Client_Disks c = RpcOk resp →
  let disks := concat (storage.GetDisks <$> storage.DMessages resp) in
  (pollDisks c info).2 = None
  ∧ elems (Blockdevices (pollDisks c info).1) = blockDevice <$> disks
  ∧ (Blockdevices (pollDisks c info).1 = None ↔ disks = [])
  ∧ (pollDisks c info).1 = set_Blockdevices (Blockdevices (pollDisks c info).1) info.
Proof.
  intros Hd disks. rewrite (pollDisks_answered c info resp Hd). fold disks. simpl.
  split; [done|]. split; [apply elems_extend_nil|]. split; [|done].
  destruct disks; simpl; split; done.
Qed.

Lemma pollHostname_listed (c : Client) (info : Info) (items : list HostnameStatus.t) :
  List_HostnameStatus c = RpcOk items →
  pollHostname c info =
    (match last items with
     | Some r =>
         set_Domainname (Some (HostnameStatus.Domainname r))
           (set_Hostname (Some (HostnameStatus.Hostname r)) info)
     | None => info
     end, None).
Proof.
  intros Hl. unfold pollHostname, forEachResource. rewrite Hl.
  rewrite (scan_store_last hostname_slice
             (λ r, (Some (HostnameStatus.Hostname r), Some (HostnameStatus.Domainname r))));
    [by destruct (last items) | apply hostname_slice_lawful | done].
Qed.

Lemma pollPlatformMetadata_listed (c : Client) (info : Info)
    (items : list PlatformMetadataSpec.t) :
  List_PlatformMetadata c = RpcOk items →
  pollPlatformMetadata c info =
    (match last items with
     | Some r => (pollPlatformMetadata_callback r info).1
     | None => info
     end, None).
Proof.
  intros Hl. unfold pollPlatformMetadata, forEachResource. rewrite Hl.
  rewrite (scan_store_last platform_slice
             (λ r, PlatformMetadata (pollPlatformMetadata_callback r info).1));
    [by destruct (last items) | apply platform_slice_lawful | done].
Qed.

(** X3. When listing succeeds, [pollHostname] and [pollPlatformMetadata]
    return [nil]; with no resource listed the snapshot is unchanged, and
    otherwise the last listed resource decides: [Info.Hostname] and
    [Info.Domainname] are both set from it, respectively
    [Info.PlatformMetadata] is the record of its eight fields. *)
Theorem last_resource_decides (c : Client) (info : Info) :
  (∀ items, List_HostnameStatus c = RpcOk items →
     (pollHostname c info).2 = None
     ∧ (items = [] → (pollHostname c info).1 = info)
     ∧ ∀ r, last items = Some r →
         (pollHostname c info).1 =
           set_Domainname (Some (HostnameStatus.Domainname r))
             (set_Hostname (Some (HostnameStatus.Hostname r)) info))
  ∧ (∀ items, List_PlatformMetadata c = RpcOk items →
     (pollPlatformMetadata c info).2 = None
     ∧ (items = [] → (pollPlatformMetadata c info).1 = info)
     ∧ ∀ r, last items = Some r →
         (pollPlatformMetadata c info).1 =
           set_PlatformMetadata
             (Some {| MachineStatusSpec_PlatformMetadata.Platform :=
                        PlatformMetadataSpec.Platform r;
                      MachineStatusSpec_PlatformMetadata.Hostname :=
                        PlatformMetadataSpec.Hostname r;
                      MachineStatusSpec_PlatformMetadata.Region :=
                        PlatformMetadataSpec.Region r;
                      MachineStatusSpec_PlatformMetadata.Zone := PlatformMetadataSpec.Zone r;
                      MachineStatusSpec_PlatformMetadata.InstanceType :=
                        PlatformMetadataSpec.InstanceType r;
                      MachineStatusSpec_PlatformMetadata.InstanceId :=
                        PlatformMetadataSpec.InstanceID r;
                      MachineStatusSpec_PlatformMetadata.ProviderId :=
                        PlatformMetadataSpec.ProviderID r;
                      MachineStatusSpec_PlatformMetadata.Spot :=
                        PlatformMetadataSpec.Spot r |}) info).
Proof.
  split; intros items Hl.
  - rewrite (pollHostname_listed c info items Hl). split; [done|]. split.
    + by intros ->.
    + by intros r ->.
  - rewrite (pollPlatformMetadata_listed c info items Hl). split; [done|]. split.
    + by intros ->.
    + by intros r ->.
Qed.

End SuccessfulRuns.

(** ** Empty answers, errors and bounds *)

Lemma extend_nil_None {A} (l : list A) : extend None l = None ↔ l = [].
Proof. destruct l; simpl; split; done. Qed.

Lemma extend_fmap_None {A B} (f : A → B) (l : list A) :
  extend None (f <$> l) = None ↔ l = [].
Proof. rewrite extend_nil_None. split; [apply fmap_nil_inv | by intros ->]. Qed.

Section Edges.
Context `{M : Machinery}.

Lemma pollAddresses_selected_last (c : Client) (info : Info) (items : list NodeAddress.t)
    (r : NodeAddress.t) :
  List_NodeAddress c = RpcOk items →
  last (List.filter (filterAddresses (MaintenanceMode info)) items) = Some r →
  pollAddresses c info =
    (set_Addresses
       (Some (Prefix_String <$> List.filter outside_SideroLink (NodeAddress.Addresses r)))
       info, None).
Proof.
  intros Hl Hlast. unfold pollAddresses, forEachResource. rewrite Hl.
  rewrite (scan_filter _ (λ i, MaintenanceMode i = MaintenanceMode info)
             (filterAddresses (MaintenanceMode info))); [| | |done].
  - apply last_Some in Hlast as [l Hlast]. rewrite Hlast, scan_app.
    destruct (pollAddresses_scan_frame l info) as [v ->]. simpl.
    assert (Hsel : filterAddresses (MaintenanceMode info) r = true).
    { assert (Hin : In r (List.filter (filterAddresses (MaintenanceMode info)) items))
        by (rewrite Hlast; apply in_app_iff; simpl; auto).
      by apply filter_In in Hin as [_ ?]. }
    rewrite pollAddresses_callback_selected by done. by destruct info.
  - intros r' i Hi. by destruct (pollAddresses_callback_frame r' i) as [v ->].
  - intros r' i Hi Hsel. apply pollAddresses_callback_other. by rewrite Hi.
Qed.

(** X9. After a successful run, the field of an accumulating poller is
    [nil], not an empty slice, exactly when nothing was kept: no route
    passing the filter, no physical link, no processor or memory module
    with non-zero figures.  [pollAddresses] differs: once it has found the
    node-address resource it reads, [Info.Addresses] is not [nil], even
    when every address of that resource is in the SideroLink range. *)
Theorem nil_when_nothing_kept (c : Client) (info : Info) :
  (∀ items, List_RouteStatus c = RpcOk items →
     (DefaultGateways (pollRoutes c info).1 = None ↔ List.filter filterRoutes items = []))
  ∧ (∀ items, List_LinkStatus c = RpcOk items →
     (NetworkLinks (pollNetworkLinks c info).1 = None
      ↔ List.filter (λ r, Physical r) items = []))
  ∧ (∀ items, List_Processor c = RpcOk items →
     (Processors (pollProcessors c info).1 = None
      ↔ List.filter
          (λ r, negb (bool_decide (Processor.CoreCount r = 0%N)
                      || bool_decide (Processor.MaxSpeed r = 0%N))) items = []))
  ∧ (∀ items, List_MemoryModule c = RpcOk items →
     (MemoryModules (pollMemory c info).1 = None
      ↔ List.filter (λ r, negb (bool_decide (MemoryModule.Size r = 0%N))) items = []))
  ∧ (∀ items r, List_NodeAddress c = RpcOk items →
     last (List.filter (filterAddresses (MaintenanceMode info)) items) = Some r →
     Addresses (pollAddresses c info).1 ≠ None
     ∧ ((∀ a, a ∈ NodeAddress.Addresses r →
           IsULA (netip.PrefixAddr a) ULASideroLink = true) →
        Addresses (pollAddresses c info).1 = Some [])).
Proof.
  split; [|split; [|split; [|split]]].
  - intros items Hl. rewrite (pollRoutes_listed c info items Hl). simpl.
    apply extend_fmap_None.
  - intros items Hl. rewrite (pollNetworkLinks_listed c info items Hl). simpl.
    apply extend_fmap_None.
  - intros items Hl. rewrite (pollProcessors_listed c info items Hl). simpl.
    apply extend_fmap_None.
  - intros items Hl. rewrite (pollMemory_listed c info items Hl). simpl.
    apply extend_fmap_None.
  - intros items r Hl Hlast.
    rewrite (pollAddresses_selected_last c info items r Hl Hlast). simpl.
    split; [done|]. intros Hula. f_equal.
    assert (Hnone : List.filter outside_SideroLink (NodeAddress.Addresses r) = []).
    { induction (NodeAddress.Addresses r) as [|a l IH]; [done|]. simpl.
      unfold outside_SideroLink at 1. rewrite (Hula a) by apply list_elem_of_here.
      simpl. apply IH. intros a' Ha'. apply Hula. by apply list_elem_of_further. }
    by rewrite Hnone.
Qed.

(** X10. A labels meta key that cannot be decoded stops [pollMeta]: when
    the first listed meta key with the labels id fails to decode,
    [pollMeta] returns the decoding error and the snapshot is unchanged,
    whatever keys are listed after it. *)
Theorem pollMeta_decode_error (c : Client) (info : Info) (items rest : list MetaKey.t)
    (metaKey : MetaKey.t) (err : error) :
  List_MetaKey c = RpcOk items →
  List.filter (λ mk, bool_decide (MetaKey.ID mk = MetaKeyTagToID LabelsMeta)) items
    = metaKey :: rest →
  ParseLabels (MetaKey.Value metaKey) = inr err →
  pollMeta c info = (info, Some err).
Proof.
  intros Hl Hfilter Hparse.
  change (List.filter labels_meta_key items = metaKey :: rest) in Hfilter.
  unfold pollMeta, forEachResource. rewrite Hl, pollMeta_filter, Hfilter. simpl.
  assert (Hsel : labels_meta_key metaKey = true).
  { assert (Hin : In metaKey (List.filter labels_meta_key items))
      by (rewrite Hfilter; simpl; auto).
    by apply filter_In in Hin as [_ ?]. }
  by rewrite pollMeta_callback_labels, Hparse.
Qed.

Lemma scan_error_source {T} (callback : T → Info → Info * option error)
    (items : list T) (info : Info) (e : error) :
  (scan callback items info).2 = Some e →
  ∃ r i, r ∈ items ∧ (callback r i).2 = Some e.
Proof.
  revert info. induction items as [|r items IH]; intros info; simpl; [done|].
  destruct (callback r info) as [i' [err|]] eqn:Hcb; simpl.
  - intros [= ->]. exists r, info. split; [apply list_elem_of_here | by rewrite Hcb].
  - intros Hrest. destruct (IH _ Hrest) as (r' & i & Hin & He).
    exists r', i. split; [by apply list_elem_of_further | done].
Qed.

(** X11. A poller invents no error.  An error returned by a resource
    poller is the error of its listing, except for [pollMeta], which may
    also return the error of decoding a listed labels meta key; an error
    returned by [pollVersion] or [pollDisks] is the error of the call,
    which for [pollVersion] is not [Unimplemented]; an error returned by
    [pollExtensions] is the one the schematic resolver returned, and it is
    not the invalid-schematic error. *)
Theorem error_provenance (c : Client) (info : Info) (e : error) :
  ((pollVersion c info).2 = Some e →
     Client_Version c = RpcErr e ∧ StatusCode (Some e) ≠ codes.Unimplemented)
  ∧ ((pollDisks c info).2 = Some e → Client_Disks c = RpcErr e)
  ∧ ((pollHostname c info).2 = Some e → List_HostnameStatus c = RpcErr e)
  ∧ ((pollRoutes c info).2 = Some e → List_RouteStatus c = RpcErr e)
  ∧ ((pollAddresses c info).2 = Some e → List_NodeAddress c = RpcErr e)
  ∧ ((pollNetworkLinks c info).2 = Some e → List_LinkStatus c = RpcErr e)
  ∧ ((pollProcessors c info).2 = Some e → List_Processor c = RpcErr e)
  ∧ ((pollMemory c info).2 = Some e → List_MemoryModule c = RpcErr e)
  ∧ ((pollPlatformMetadata c info).2 = Some e → List_PlatformMetadata c = RpcErr e)
  ∧ ((pollMeta c info).2 = Some e →
     List_MetaKey c = RpcErr e
     ∨ ∃ items metaKey,
         List_MetaKey c = RpcOk items ∧ metaKey ∈ items
         ∧ MetaKey.ID metaKey = MetaKeyTagToID LabelsMeta
         ∧ ParseLabels (MetaKey.Value metaKey) = inr e)
  ∧ ((pollExtensions c info).2 = Some e →
     (∃ id, GetSchematicID c = (id, Some e)) ∧ errors_Is e ErrInvalidSchematic = false).
Proof.
  split.
  { intros H. destruct (Client_Version c) as [resp|e'] eqn:Hv.
    - by rewrite (pollVersion_answered c info resp Hv) in H.
    - rewrite (pollVersion_failed c info e' Hv) in H. simpl in H.
      case_decide; [done|]. by injection H as <-. }
  split.
  { destruct (Client_Disks c) as [resp|e'] eqn:Hd.
    - by rewrite (pollDisks_answered c info resp Hd).
    - rewrite (pollDisks_failed c info e' Hd). by intros [= ->]. }
  split.
  { destruct (List_HostnameStatus c) as [items|e'] eqn:Hl.
    - by rewrite (pollHostname_listed c info items Hl).
    - unfold pollHostname. rewrite Hl. by intros [= ->]. }
  split.
  { destruct (List_RouteStatus c) as [items|e'] eqn:Hl.
    - by rewrite (pollRoutes_listed c info items Hl).
    - unfold pollRoutes. rewrite Hl. by intros [= ->]. }
  split.
  { destruct (List_NodeAddress c) as [items|e'] eqn:Hl.
    - unfold pollAddresses. rewrite Hl. simpl.
      destruct (pollAddresses_scan_frame items info) as [v ->]. done.
    - unfold pollAddresses. rewrite Hl. by intros [= ->]. }
  split.
  { destruct (List_LinkStatus c) as [items|e'] eqn:Hl.
    - by rewrite (pollNetworkLinks_listed c info items Hl).
    - unfold pollNetworkLinks. rewrite Hl. by intros [= ->]. }
  split.
  { destruct (List_Processor c) as [items|e'] eqn:Hl.
    - by rewrite (pollProcessors_listed c info items Hl).
    - unfold pollProcessors. rewrite Hl. by intros [= ->]. }
  split.
  { destruct (List_MemoryModule c) as [items|e'] eqn:Hl.
    - by rewrite (pollMemory_listed c info items Hl).
    - unfold pollMemory. rewrite Hl. by intros [= ->]. }
  split.
  { destruct (List_PlatformMetadata c) as [items|e'] eqn:Hl.
    - by rewrite (pollPlatformMetadata_listed c info items Hl).
    - unfold pollPlatformMetadata. rewrite Hl. by intros [= ->]. }
  split.
  { destruct (List_MetaKey c) as [items|e'] eqn:Hl.
    - unfold pollMeta. rewrite Hl. simpl. intros He. right.
      apply scan_error_source in He as (mk & i & Hin & He).
      exists items, mk. split; [done|]. split; [done|].
      destruct (labels_meta_key mk) eqn:Hsel.
      + rewrite pollMeta_callback_labels in He by done.
        split; [by apply bool_decide_eq_true in Hsel|].
        destruct (ParseLabels (MetaKey.Value mk)); [done|]. by injection He as ->.
      + by rewrite pollMeta_callback_other in He.
    - unfold pollMeta. rewrite Hl. intros [= ->]. by left. }
  intros H. unfold pollExtensions in H.
  destruct (GetSchematicID c) as [id [e'|]]; [|done].
  simpl in H. destruct (errors_Is e' ErrInvalidSchematic) eqn:His; [done|].
  injection H as ->. eauto.
Qed.

(** X12. Every link [pollNetworkLinks] records has a speed between 0 and
    2^32 - 1: a speed of the node in that range is recorded as it is, and
    a negative one (down to -2^32) is recorded 2^32 higher. *)
Theorem recorded_speed_range (c : Client) (info info' : Info) :
  pollNetworkLinks c info = (info', None) →
  (∀ l, l ∈ elems (NetworkLinks info') →
     (0 ≤ MachineStatusSpec_NetworkLinkStatus.SpeedMbps l < 2 ^ 32)%Z)
  ∧ ∀ r,
      ((0 ≤ LinkStatus.SpeedMegabits r < 2 ^ 32)%Z →
       MachineStatusSpec_NetworkLinkStatus.SpeedMbps (networkLinkStatus r)
       = LinkStatus.SpeedMegabits r)
      ∧ ((- 2 ^ 32 ≤ LinkStatus.SpeedMegabits r < 0)%Z →
         MachineStatusSpec_NetworkLinkStatus.SpeedMbps (networkLinkStatus r)
         = (LinkStatus.SpeedMegabits r + 2 ^ 32)%Z).
Proof.
  intros Hrun. destruct (forEachResource_ok _ _ _ _ Hrun) as [items Hl].
  rewrite (pollNetworkLinks_listed c info items Hl) in Hrun. injection Hrun as <-.
  split.
  - simpl. rewrite elems_extend_nil. intros l Hin.
    apply list_elem_of_fmap in Hin as (r & -> & _). simpl. unfold uint32.
    apply Z.mod_pos_bound. lia.
  - intros r. simpl. unfold uint32. split; intros Hr.
    + by apply Z.mod_small.
    + symmetry. apply (Z.mod_unique _ _ (-1)); lia.
Qed.

End Edges.

(** ** Labels and maps *)

Lemma maskLabels_subseteq (keys : list string) (labels : gmap string string) :
  maskLabels keys labels ⊆ labels.
Proof.
  apply map_subseteq_spec. intros k v. rewrite maskLabels_lookup. by case_decide.
Qed.

Lemma maskLabels_dom (keys : list string) (labels : gmap string string) :
  dom (maskLabels keys labels) = dom labels ∖ list_to_set keys.
Proof.
  apply set_eq. intros k.
  rewrite elem_of_difference, !elem_of_dom, maskLabels_lookup, elem_of_list_to_set.
  case_decide as Hk; split.
  - intros Hsome. by apply is_Some_None in Hsome.
  - intros [_ Hout]. by destruct Hout.
  - intros Hsome. by split.
  - by intros [Hsome _].
Qed.

(** X13. Filtering the image labels by the machine labels only takes
    entries away, and depends on the machine labels through their key set
    alone: the keys left are those of the labels that are no machine-label
    key, each with its value; two sets of machine labels with the same
    keys filter alike, whatever their values and whatever the order in
    which the keys are listed; machine labels with no key among the
    labels leave them as they are. *)
Theorem filterMachineLabels_by_key_set (ml : omni_MachineLabels.t)
    (labels : gmap string string) :
  (∃ kept, filterMachineLabels (Some ml) (Some labels) = Some kept
     ∧ kept ⊆ labels
     ∧ dom kept = dom labels ∖ dom (omni_MachineLabels.Labels ml))
  ∧ (∀ ml', dom (omni_MachineLabels.Labels ml') = dom (omni_MachineLabels.Labels ml) →
       filterMachineLabels (Some ml') (Some labels) = filterMachineLabels (Some ml) (Some labels))
  ∧ (∀ keys, (∀ k, k ∈ keys ↔ k ∈ omni_MachineLabels.Keys ml) →
       maskLabels keys labels = maskLabels (omni_MachineLabels.Keys ml) labels)
  ∧ (dom (omni_MachineLabels.Labels ml) ## dom labels →
     filterMachineLabels (Some ml) (Some labels) = Some labels).
Proof.
  assert (Hkeys : ∀ m : omni_MachineLabels.t,
            list_to_set (omni_MachineLabels.Keys m)
            =@{gset string} dom (omni_MachineLabels.Labels m)).
  { intros m. apply set_eq. intros k.
    by rewrite elem_of_list_to_set, Keys_elem, elem_of_dom. }
  split; [|split; [|split]].
  - eexists. split; [reflexivity|]. split; [apply maskLabels_subseteq|].
    by rewrite maskLabels_dom, Hkeys.
  - intros ml' Hdom. simpl. f_equal. apply map_eq. intros k.
    rewrite !maskLabels_lookup.
    assert (Hk : k ∈ omni_MachineLabels.Keys ml' ↔ k ∈ omni_MachineLabels.Keys ml).
    { by rewrite <- !(elem_of_list_to_set (C := gset string)), !Hkeys, Hdom. }
    repeat case_decide; tauto.
  - intros keys Hk. apply map_eq. intros k. rewrite !maskLabels_lookup.
    specialize (Hk k). repeat case_decide; tauto.
  - intros Hdisj. simpl. f_equal. apply map_eq. intros k. rewrite maskLabels_lookup.
    case_decide as Hin; [|done].
    apply Keys_elem, elem_of_dom in Hin.
    destruct (labels !! k) eqn:Hl; [|done].
    exfalso. apply (Hdisj k); [done|]. apply elem_of_dom. eauto.
Qed.


(** ** The meta values of a schematic *)

(** The order [IsSortedFunc compareMeta] checks: keys do not go up. *)
Lemma IsSortedFunc_compareMeta (x : list MetaValue.t) :
  IsSortedFunc compareMeta x = true
  ↔ Sorted (λ a b, (MetaValue.Key b ≤ MetaValue.Key a)%N) x.
Proof.
  induction x as [|a rest IH]; simpl; [split; [constructor | done]|].
  destruct rest as [|b rest'].
  - split; [intros _; repeat constructor | done].
  - rewrite andb_true_iff, IH, negb_true_iff, Z.ltb_ge.
    assert (Hcmp : (0 ≤ compareMeta b a)%Z ↔ (MetaValue.Key b ≤ MetaValue.Key a)%N).
    { unfold compareMeta.
      destruct (N.ltb_spec (MetaValue.Key b) (MetaValue.Key a));
        [split; [lia | done]|].
      destruct (N.ltb_spec (MetaValue.Key a) (MetaValue.Key b)); split; lia. }
    rewrite Hcmp. split.
    + intros [Hab Hs]. constructor; [done | by constructor].
    + intros Hs. inversion Hs as [|?? Hrest Hhd]; subst.
      inversion Hhd; subst. done.
Qed.

Section Meta.
Context `{M : Machinery}.
Variable CanSetMetaKey : Z → bool.

Lemma collectMeta_accepted (entries : list (N * string)) (meta : list MetaValue.t) :
  (∀ entry, entry ∈ entries → CanSetMetaKey (Z.of_N entry.1) = true) →
  collectMeta CanSetMetaKey entries meta = inl (meta ++ (metaValue <$> entries)).
Proof.
  revert meta. induction entries as [|[key value] rest IH]; intros meta Hall; simpl.
  - by rewrite app_nil_r.
  - pose proof (Hall (key, value) (list_elem_of_here _ _)) as Hkey. simpl in Hkey.
    rewrite Hkey. simpl.
    rewrite IH by (intros e He; apply Hall; by apply list_elem_of_further).
    by rewrite <- app_assoc.
Qed.

End Meta.

Lemma NoDup_fmap_elem_inj {A B} (f : A → B) (l : list A) (x y : A) :
  NoDup (f <$> l) → x ∈ l → y ∈ l → f x = f y → x = y.
Proof.
  induction l as [|a l IH]; intros Hnd Hx Hy Hf; [by apply elem_of_nil in Hx|].
  rewrite fmap_cons in Hnd. apply NoDup_cons in Hnd as [Ha Hnd].
  apply elem_of_cons in Hx as [->|Hx], Hy as [->|Hy]; [done| | |by apply IH].
  - destruct Ha. rewrite Hf. apply list_elem_of_fmap. eauto.
  - destruct Ha. rewrite <- Hf. apply list_elem_of_fmap. eauto.
Qed.

Section SchematicMeta.
Context `{M : Machinery}.
Variable CanSetMetaKey : Z → bool.

(** The outcome of the loop, from any [customization.Meta] it starts
    with. *)
Lemma collectMeta_outcome (entries : list (N * string)) (meta : list MetaValue.t) :
  match collectMeta CanSetMetaKey entries meta with
  | inl meta' =>
      (∀ entry, entry ∈ entries → CanSetMetaKey (Z.of_N entry.1) = true)
      ∧ meta' = meta ++ (metaValue <$> entries)
  | inr err =>
      ∃ before key value after,
        entries = before ++ (key, value) :: after
        ∧ (∀ entry, entry ∈ before → CanSetMetaKey (Z.of_N entry.1) = true)
        ∧ CanSetMetaKey (Z.of_N key) = false
        ∧ err = StatusError codes.InvalidArgument
                  ("meta key " +:+ MetaKeyTagToID (key mod 256)
                   +:+ " is not allowed to be set in the schematic, as it's reserved by Talos")
  end.
Proof.
  revert meta. induction entries as [|[key value] rest IH]; intros meta; simpl.
  - split; [intros e He; by apply elem_of_nil in He | by rewrite app_nil_r].
  - destruct (CanSetMetaKey (Z.of_N key)) eqn:Hkey; simpl.
    + specialize (IH (meta ++ [{| MetaValue.Key := (key mod 256)%N;
                                  MetaValue.Value := value |}])).
      destruct (collectMeta CanSetMetaKey rest _) as [meta'|err].
      * destruct IH as [Hall ->]. split.
        -- intros e He. apply elem_of_cons in He as [->|He]; [done | by apply Hall].
        -- by rewrite <- app_assoc.
      * destruct IH as (before & k & v & after & -> & Hbefore & Hk & ->).
        exists ((key, value) :: before), k, v, after. split; [done|]. split; [|done].
        intros e He. apply elem_of_cons in He as [->|He]; [done | by apply Hbefore].
    + exists [], key, value, rest. split; [done|]. split; [|done].
      intros e He. by apply elem_of_nil in He.
Qed.

(** X15. [CreateSchematic] takes the requested meta values all or
    nothing.  When every requested key may be set, the loop yields one
    meta value per entry, in the order the map is ranged over, with the
    key converted to [uint8]; otherwise it fails with an
    [InvalidArgument] status naming the first key, in that order, that
    may not be set, and every key before it may be set. *)
Theorem collectMeta_all_or_first_reserved (entries : list (N * string)) :
  match collectMeta CanSetMetaKey entries [] with
  | inl meta =>
      (∀ entry, entry ∈ entries → CanSetMetaKey (Z.of_N entry.1) = true)
      ∧ meta = metaValue <$> entries
  | inr err =>
      ∃ before key value after,
        entries = before ++ (key, value) :: after
        ∧ (∀ entry, entry ∈ before → CanSetMetaKey (Z.of_N entry.1) = true)
        ∧ CanSetMetaKey (Z.of_N key) = false
        ∧ err = StatusError codes.InvalidArgument
                  ("meta key " +:+ MetaKeyTagToID (key mod 256)
                   +:+ " is not allowed to be set in the schematic, as it's reserved by Talos")
  end.
Proof.
  pose proof (collectMeta_outcome entries []) as Hout.
  by destruct (collectMeta CanSetMetaKey entries []).
Qed.

(** X16. The sorted meta values of a schematic do not depend on the order
    in which the request map is ranged over.  When the requested keys
    stay distinct as [uint8] and the loop accepts them in one order, it
    accepts them in any other order, and every sorted rearrangement of
    what it yields, under the comparison of [CreateSchematic], is one and
    the same list, with keys going down. *)
Theorem sorted_meta_canonical (entries1 entries2 : list (N * string))
    (meta1 sorted1 : list MetaValue.t) :
  entries1 ≡ₚ entries2 →
  NoDup ((λ entry, (entry.1 mod 256)%N) <$> entries1) →
  collectMeta CanSetMetaKey entries1 [] = inl meta1 →
  sorted1 ≡ₚ meta1 →
  IsSortedFunc compareMeta sorted1 = true →
  (∃ meta2, collectMeta CanSetMetaKey entries2 [] = inl meta2
     ∧ ∀ sorted2, sorted2 ≡ₚ meta2 → IsSortedFunc compareMeta sorted2 = true →
         sorted2 = sorted1)
  ∧ Sorted (λ a b, (MetaValue.Key b < MetaValue.Key a)%N) sorted1.
Proof.
  intros Hperm Hnd Hrun Hs1 Hsorted1.
  pose proof (collectMeta_outcome entries1 []) as H1. rewrite Hrun in H1.
  destruct H1 as [Hall ->]. simpl in Hs1, Hrun.
  assert (Hall2 : ∀ entry, entry ∈ entries2 → CanSetMetaKey (Z.of_N entry.1) = true).
  { intros e He. apply Hall. by rewrite Hperm. }
  assert (Hkeys : NoDup (MetaValue.Key <$> sorted1)).
  { rewrite Hs1, <- list_fmap_compose. exact Hnd. }
  apply IsSortedFunc_compareMeta in Hsorted1.
  assert (Htrans : Transitive (λ a b : MetaValue.t, (MetaValue.Key b ≤ MetaValue.Key a)%N))
    by (intros x y z ??; lia).
  split.
  - exists (metaValue <$> entries2). split.
    + rewrite (collectMeta_accepted CanSetMetaKey entries2 [] Hall2). done.
    + intros sorted2 Hs2 Hsorted2. apply IsSortedFunc_compareMeta in Hsorted2.
      assert (Hp : sorted2 ≡ₚ sorted1) by (by rewrite Hs2, Hs1, Hperm).
      apply (Sorted_unique_strong
               (λ a b : MetaValue.t, (MetaValue.Key b ≤ MetaValue.Key a)%N)
               sorted2 sorted1); [|done..].
      intros x1 x2 Hx1 Hx2 H12 H21.
      apply (NoDup_fmap_elem_inj MetaValue.Key sorted1); [done| |done|lia].
      by rewrite <- Hp.
  - apply Sorted_StronglySorted in Hsorted1; [|done].
    apply StronglySorted_Sorted.
    clear Hs1. induction Hsorted1 as [|a l Hl IH Ha]; [constructor|].
    rewrite fmap_cons in Hkeys. apply NoDup_cons in Hkeys as [Hnotin Hkeys].
    constructor; [by apply IH|].
    rewrite Forall_forall in Ha |- *. intros b Hb.
    specialize (Ha b Hb). simpl in Ha.
    assert (MetaValue.Key b ≠ MetaValue.Key a).
    { intros Heq. apply Hnotin. rewrite <- Heq. apply list_elem_of_fmap. eauto. }
    lia.
Qed.

End SchematicMeta.

(** ** Runs of the further properties *)

Lemma pollVersion_last_message_witness :
  Client_Version Runs.answering
  = RpcOk {| machineapi.VMessages :=
               [{| machineapi.GetVersion :=
                     Some {| machineapi.Tag := "v1.6.0"; machineapi.VArch := "amd64" |} |}] |}
  ∧ (pollVersion Runs.answering Runs.polled).2 = None
  ∧ TalosVersion (pollVersion Runs.answering Runs.polled).1 = Some "v1.6.0".
Proof.
  split; [reflexivity|].
  destruct (pollVersion_last_message Runs.answering Runs.polled _ eq_refl) as (Hok & _ & Hlast).
  split; [exact Hok|].
  rewrite (proj1 (Hlast _ eq_refl)). reflexivity.
Defined.

Lemma pollDisks_blockdevices_witness :
  (pollDisks Runs.answering Runs.polled).2 = None
  ∧ elems (Blockdevices (pollDisks Runs.answering Runs.polled).1) = [Runs.disk].
Proof.
  destruct (pollDisks_blockdevices Runs.answering Runs.polled _ eq_refl) as (Hok & Helems & _).
  split; [exact Hok|]. rewrite Helems. reflexivity.
Defined.

Lemma last_resource_decides_witness :
  (pollHostname Runs.answering Runs.polled).1
  = set_Domainname (Some "") (set_Hostname (Some "node-1") Runs.polled)
  ∧ (pollPlatformMetadata Runs.answering Runs.polled).1 = Runs.polled.
Proof.
  destruct (last_resource_decides Runs.answering Runs.polled) as [Hhost Hplatform].
  split.
  - exact (proj2 (proj2 (Hhost _ eq_refl)) _ eq_refl).
  - exact (proj1 (proj2 (Hplatform _ eq_refl)) eq_refl).
Defined.

Lemma poll_keeps_mode_and_labels_witness :
  @poll Example.node "MetaKeys.runtime.talos.dev" Runs.machine Runs.polled
  = Returns (@pollMeta Example.node Runs.machine Runs.polled)
  ∧ MaintenanceMode (@pollMeta Example.node Runs.machine Runs.polled).1 = false
  ∧ MachineLabels (@pollMeta Example.node Runs.machine Runs.polled).1 = Some Runs.user_labels.
Proof.
  assert (Hpoll : @poll Example.node "MetaKeys.runtime.talos.dev" Runs.machine Runs.polled
                  = Returns (@pollMeta Example.node Runs.machine Runs.polled)).
  { unfold poll, allPollers. rewrite merged_lookup. reflexivity. }
  split; [exact Hpoll|].
  exact (@poll_keeps_mode_and_labels Example.node _ _ _ _ Hpoll).
Defined.

Lemma poll_idempotent_witness :
  @poll Example.node "disks" Runs.answering Runs.polled
  = Returns (pollDisks Runs.answering Runs.polled)
  ∧ @poll Example.node "disks" Runs.answering (pollDisks Runs.answering Runs.polled).1
    = Returns (pollDisks Runs.answering Runs.polled).
Proof.
  assert (Hpoll : @poll Example.node "disks" Runs.answering Runs.polled
                  = Returns (pollDisks Runs.answering Runs.polled)).
  { unfold poll, allPollers. rewrite merged_lookup. reflexivity. }
  split; [exact Hpoll|].
  exact (@poll_idempotent Example.node _ _ _ _ Hpoll).
Defined.

Lemma pollers_commute_witness :
  (pollVersion Runs.answering (pollDisks Runs.answering Runs.polled).1).1
  = (pollDisks Runs.answering (pollVersion Runs.answering Runs.polled).1).1
  ∧ (pollVersion Runs.answering (pollDisks Runs.answering Runs.polled).1).2
    = (pollVersion Runs.answering Runs.polled).2
  ∧ (pollDisks Runs.answering (pollVersion Runs.answering Runs.polled).1).2
    = (pollDisks Runs.answering Runs.polled).2.
Proof.
  apply (@pollers_commute Example.node Runs.answering Runs.polled "disks" "version"
           pollDisks pollVersion).
  - unfold allPollers. rewrite merged_lookup. reflexivity.
  - unfold allPollers. rewrite merged_lookup. reflexivity.
  - discriminate.
Defined.

Lemma nil_when_nothing_kept_witness :
  DefaultGateways (@pollRoutes Example.node Example.quiet Runs.polled).1 = None
  ∧ Addresses (@pollAddresses Example.node Extra.unknown_speed Example.fresh).1 = Some [].
Proof.
  destruct (@nil_when_nothing_kept Example.node Example.quiet Runs.polled)
    as (Hroutes & _).
  destruct (@nil_when_nothing_kept Example.node Extra.unknown_speed Example.fresh)
    as (_ & _ & _ & _ & Haddr).
  split.
  - exact (proj2 (Hroutes [] eq_refl) eq_refl).
  - refine (proj2 (Haddr _ {| NodeAddress.ID := "current-no-k8s";
                              NodeAddress.Addresses := [Runs.sidero] |} eq_refl eq_refl) _).
    intros a Ha. apply list_elem_of_singleton in Ha as ->. reflexivity.
Defined.

Lemma pollMeta_decode_error_witness :
  @pollMeta Example.node Extra.broken_labels Runs.polled
  = (Runs.polled, Some (ErrorNew "yaml: cannot decode")).
Proof.
  apply (@pollMeta_decode_error Example.node Extra.broken_labels Runs.polled
           Extra.broken_keys [Runs.labels_key]
           {| MetaKey.ID := "0x0c"; MetaKey.Value := "{" |}).
  - reflexivity.
  - reflexivity.
  - reflexivity.
Defined.

Lemma error_provenance_witness :
  (pollDisks (Example.unreachable Runs.cancelled) Runs.polled).2 = Some Runs.cancelled
  ∧ Client_Disks (Example.unreachable Runs.cancelled) = RpcErr Runs.cancelled.
Proof.
  split; [reflexivity|].
  destruct (@error_provenance Example.node (Example.unreachable Runs.cancelled) Runs.polled
              Runs.cancelled) as (_ & Hdisks & _).
  exact (Hdisks eq_refl).
Defined.

Lemma recorded_speed_range_witness :
  @pollNetworkLinks Example.node Extra.unknown_speed Example.fresh
  = (set_NetworkLinks
       (Some [{| MachineStatusSpec_NetworkLinkStatus.LinuxName := "eth1";
                 MachineStatusSpec_NetworkLinkStatus.HardwareAddress := "02:00:17:01:02:04";
                 MachineStatusSpec_NetworkLinkStatus.SpeedMbps := 4294967295;
                 MachineStatusSpec_NetworkLinkStatus.LinkUp := false;
                 MachineStatusSpec_NetworkLinkStatus.Description := "Intel I210" |}])
       Example.fresh, None)
  ∧ ∀ l, l ∈ elems (NetworkLinks
                      (@pollNetworkLinks Example.node Extra.unknown_speed Example.fresh).1) →
      (0 ≤ MachineStatusSpec_NetworkLinkStatus.SpeedMbps l < 2 ^ 32)%Z.
Proof.
  split; [reflexivity|].
  exact (proj1 (@recorded_speed_range Example.node Extra.unknown_speed Example.fresh
                  _ eq_refl)).
Defined.

Example collectMeta_reserved :
  @collectMeta Example.node Extra.user_keys [(12%N, "a"); (6%N, "b"); (3%N, "c")] []
  = inr (StatusError codes.InvalidArgument
           "meta key 0x06 is not allowed to be set in the schematic, as it's reserved by Talos").
Proof. reflexivity. Qed.

Lemma sorted_meta_canonical_witness :
  (∃ meta2, @collectMeta Example.node Extra.user_keys Extra.requested' [] = inl meta2
     ∧ ∀ sorted2, sorted2 ≡ₚ meta2 → IsSortedFunc compareMeta sorted2 = true →
         sorted2 = Extra.sorted_meta)
  ∧ Sorted (λ a b, (MetaValue.Key b < MetaValue.Key a)%N) Extra.sorted_meta.
Proof.
  apply (@sorted_meta_canonical Example.node Extra.user_keys Extra.requested Extra.requested'
           [{| MetaValue.Key := 10; MetaValue.Value := "10.5.0.2" |};
            {| MetaValue.Key := 12; MetaValue.Value := "rack-7" |}]
           Extra.sorted_meta).
  - apply perm_swap.
  - apply (bool_decide_unpack _). vm_compute. reflexivity.
  - reflexivity.
  - apply perm_swap.
  - reflexivity.
Defined.
